(* ===== verification/_CoqProject ===== *)
-Q . S2P
Prelude.v
Vector.v
Quad.v
Cube.v
Readback.v
RuntimeMesh.v
Table.v
Lifecycle.v
Geometry.v
Rebuild.v
Sections.v
Session.v
Scene.v
