(* ===== verification/Prelude.v ===== *)
(** * A verified model of the ZuruTest procedural table mesh

    The repository is one Unreal Engine 4 actor, [ATableActor], in
    [src/Source/ZuruTest/TableActor.cpp].  It builds a table (a tabletop
    and four legs) out of five axis-aligned boxes, each box a flat-shaded
    mesh of 24 vertices and 36 triangle indices, and hands every box to a
    [URuntimeMeshComponent] as its own mesh section.

    ** The parts of the program and how they interact

    - [BuildQuad] (lines 155-178) writes one face: four vertices
      (position, UV, packed normal and tangent) at [VertexOffset ..
      VertexOffset+3] of a caller-owned [TArray], and the six indices of
      the triangles 0-1-2 and 0-2-3 at [TriangleOffset .. +5] of a second
      [TArray]; both offsets are [int32&] and are advanced in place.
    - [GenerateCube] (lines 95-153) computes the eight corners of a box of
      a given size centred on an offset, and calls [BuildQuad] six times,
      threading the two offsets from 0 to 24 and 36.
    - [GenerateMesh] (lines 39-91) allocates the two buffers once
      ([SetupMeshBuffers], lines 32-37, guarded by the member flag
      [bHaveBuffersBeenInitialized]), then generates the tabletop and
      the four legs into the same two buffers, copying each result into
      a mesh section of the runtime mesh component and setting its
      material.  The leg offsets are kept in the members
      [offsetDiffX/Y/Z].
    - The constructor (lines 10-16), [OnConstruction] (lines 19-23) and
      [BeginPlay] (lines 26-30) are the engine's entry points; the last
      two call [GenerateMesh].

    ** The files of the development

    - [Prelude] (this file): the engine primitives the code relies on:
      [int32] with its range, the post-increment [x++] that is undefined
      behaviour past [MAX_int32] ([int32_incr], the fault
      [SignedOverflow]), the range-checked element write of
      [TArray::operator[]] ([RangeCheck], [TArray_modify], the fault
      [IndexOutOfBounds]) and [TArray::AddUninitialized]
      ([AddUninitialized], whose new cells hold an arbitrary [junk]
      function of their position).  A state-and-error monad [M] with the
      notation [x <- m ;; k] in [mesh_monad_scope], its bind lemmas, the
      rewrite database [mesh_len] of length lemmas and the tactics the
      components share ([mstep] runs one bind by a lemma, [len] closes a
      length goal).
    - [Vector]: the engine value types ([FVector], [FVector2D], [FBox],
      [FColor], [FPackedNormal], the vertex [FRuntimeMeshVertexSimple]
      and its field setters), generic over the scalar through the class
      [FloatOps] (the [float] operations the code performs), with the
      exact-rational instance [FloatOps_Q].
    - [Quad]: [BuildQuad] statement by statement over [MeshBuffers] (the
      two [TArray]s) and what one quad is ([quad_attrs],
      [quad_indices]); its theorems give the result on every branch: the
      write on success, the int32 overflow, the fault on a short vertex
      buffer and on a short index buffer.
    - [Cube]: [GenerateCube] as the code writes it (literal corners, six
      [BuildQuad] calls threading the offsets) and the abstract box
      ([corner], [face_corners], [face_normal], [face_tangent],
      [box_attrs], [box_indices]); the refinement theorem, the exact
      fault on short buffers, the per-vertex closed form, flat shading
      and the frame.
    - [Readback]: a reader that decodes a quad ([read_quad]) and a box
      ([read_box]) from the buffers into the arguments of the
      [BuildQuad] calls, rejecting windows of any other shape; the round
      trips: decoding what [BuildQuad] and [GenerateCube] wrote gives
      back their arguments, and [GenerateCube] leaves unchanged any
      buffers that already decode to its box.
    - [RuntimeMesh]: the interface the actor relies on from the plugin
      component, the class [RuntimeMeshComponent] of its four operations
      with the laws [RuntimeMeshLaws], and an implementation over stdpp's
      [gmap] ([RMCState]) that discharges them.
    - [Table]: the actor's members as the record [ATableActor] (with
      the scene components as [SceneSetup]: the root, the mesh
      component's name, its attach parent and its serialisation flag),
      its constructor statement by statement, [SetupMeshBuffers], one leg block [GenerateLeg] and
      [GenerateMesh] composed as the code composes them.  The abstract
      table ([table_parts], [part_section], [generated_mesh]) and the
      refinement theorem [GenerateMesh_spec] from the buffer invariant
      [buffers_inv]; the theorems on the sections and materials are
      proved against the class, for every implementation of the laws.
    - [Lifecycle]: [OnConstruction], [BeginPlay] and the editor's
      property edits as the step relation [step]; [reachable] states
      from the constructor, whose component has no section yet; the
      buffer invariant by rule induction,
      [GenerateMesh] never faulting and every event having a successor,
      and the sections after [BeginPlay].
    - [Geometry]: the same definitions at [R = Q]: vectors, dot and cross
      products, pointwise equality [veq] with its [Proper] instances;
      the corners lie on their faces, both triangles of every face wind
      counter-clockwise seen from outside (in UE's left-handed frame),
      the tangents, the offset acting as a translation of the box, the
      placement of the legs, and the bounding box, which is the
      tightest box around the tabletop and does not contain the legs.
    - [Rebuild]: successive and alternative runs of [GenerateMesh]:
      observational equivalence of components ([mesh_equiv], with
      [Proper] instances for the component's operations derived from
      its laws) and of actors ([actor_equiv]); a second run changes
      nothing observable, runs on different uninitialised memory differ
      only in vertex colours, and the fault when
      the allocation flag is set on short buffers.
    - [Sections]: what a renderer needs of a section ([section_wf]:
      whole triangles, indices in range, no degenerate triangle), with a
      [Decision] instance that evaluates it; every section [GenerateMesh]
      creates and every section of a reachable state is well formed, and
      each section decodes to the face table of its part of the table.
    - [Session]: [run_events], the engine's events executed in sequence;
      it agrees with [step], and a session of any length from a
      reachable state runs to its end without a fault.
    - [Scene]: the frame property [keeps_scene] of computations on the
      actor, closed under bind and proved for [GenerateMesh] from its
      parts by a hint database; in every reachable state the mesh
      component stays attached to the root and is not serialised.

    ** Bounds and choices

    No fuel is needed: every function is structural, and the source has
    no loop (the six faces and five boxes are unrolled calls), so there
    is no termination property to state beyond the totality of the
    definitions; [run_events] recurses on the list of events.  The offsets are
    [Z] values checked against [MAX_int32] at each increment, so the
    theorems carry the side conditions [vo + 4 <= MAX_int32] and
    [to + 6 <= MAX_int32], which the calls from [GenerateCube] (offsets
    at most 24 and 36) meet.  Uninitialised memory is a parameter
    ([junkV], [junkT]); every theorem holds for all of it.  [float] is
    abstracted by [FloatOps]; the geometric theorems take exact
    rationals, so they show the intended geometry and say nothing about
    rounding.

    ** Not modelled

    The [URuntimeMeshComponent] plugin beyond the laws the actor uses
    (rendering, collision cooking, serialisation), the 8-bit
    quantisation of [FPackedNormal], float rounding, and the engine's
    side of the hooks: the [Super::] calls (which do not touch the
    members modelled), the [Transform] passed to [OnConstruction] (only
    handed to [Super::OnConstruction]), and the world the root
    component is placed in.  The engine primitives of [Prelude] and the
    value types of [Vector] model library code, not code of the
    repository: they are used by the models of the source and mapped
    only where they translate a statement of it ([int32_incr] for the
    post-increments).  The editable
    properties are declared in the header [TableActor.h], not in the
    sources; their edit in the editor is modelled from the spec
    ([set_props]). *)

From stdpp Require Export base list numbers.
From Stdlib Require Export ZArith Lia.

Declare Scope mesh_monad_scope.
Delimit Scope mesh_monad_scope with mm.

(** ** Machine integers: [int32] *)

Definition MAX_int32 : Z := 2 ^ 31 - 1.
Definition MIN_int32 : Z := - 2 ^ 31.

(** ** Faults

    The two ways the code can stop: the [RangeCheck] of
    [TArray::operator[]] (a failed [checkf] that halts the program with
    "Array index out of bounds: Index from an array of size ArrayNum"),
    and signed [int32] overflow of a post-increment (undefined
    behaviour, which we treat as a fault rather than as a wrap). *)

Inductive Fault : Type :=
| IndexOutOfBounds (Index ArrayNum : Z)
| SignedOverflow.

(** ** The state-and-error monad *)

Definition M (S A : Type) : Type := S -> Fault + (A * S).

Definition mret {S A} (a : A) : M S A := fun s => inr (a, s).

Definition mbind {S A B} (m : M S A) (k : A -> M S B) : M S B :=
  fun s => match m s with
           | inl f => inl f
           | inr (a, s') => k a s'
           end.

Definition mfail {S A} (f : Fault) : M S A := fun _ => inl f.

Notation "x <- m ;; k" := (mbind m (fun x => k))
  (at level 100, m at next level, right associativity) : mesh_monad_scope.
Notation "m ;; k" := (mbind m (fun _ => k))
  (at level 100, right associativity) : mesh_monad_scope.

Open Scope mesh_monad_scope.

Definition mget {S} : M S S := fun s => inr (s, s).
Definition mmodify {S} (f : S -> S) : M S unit := fun s => inr (tt, f s).

(** [x++] on an [int32]: the old value is the result, the new value is
    [x + 1], and incrementing [MAX_int32] is undefined behaviour. *)
Definition int32_incr {S} (x : Z) : M S Z :=
  if (x <? MAX_int32)%Z then mret (x + 1)%Z else mfail SignedOverflow.

(** ** [TArray] element access

    [TArray::RangeCheck(Index)] accepts [0 <= Index < ArrayNum].  The
    comparison with the length is written on [nat] so that it computes
    on a list whose first cells are known and whose tail is not. *)
Definition RangeCheck {A} (l : list A) (Index : Z) : bool :=
  (0 <=? Index)%Z && (Z.to_nat Index <? length l)%nat.

(** [Array[Index].Field = v]: a checked read-modify-write of the element. *)
Definition TArray_modify {A} (Index : Z) (f : A -> A) (l : list A)
    : Fault + list A :=
  if RangeCheck l Index then inr (alter f (Z.to_nat Index) l)
  else inl (IndexOutOfBounds Index (Z.of_nat (length l))).

(** [Array.AddUninitialized(Count)]: [Count] new cells whose contents
    are whatever the allocator left there, given by [junk] (the cell at
    absolute position [i] holds [junk i]). *)
Definition AddUninitialized {A} (junk : nat -> A) (Count : nat) (l : list A)
    : list A :=
  l ++ map junk (seq (length l) Count).

(** ** Generic lemmas *)

Create HintDb mesh.
Create Rewrite HintDb mesh_len.

Lemma mbind_inr {S A B} (m : M S A) (k : A -> M S B) s a s' :
  m s = inr (a, s') -> mbind m k s = k a s'.
Proof. unfold mbind. intros ->. reflexivity. Qed.

Lemma mbind_inl {S A B} (m : M S A) (k : A -> M S B) s f :
  m s = inl f -> mbind m k s = inl f.
Proof. unfold mbind. intros ->. reflexivity. Qed.

Lemma inr_snd_inj {E A S} (a a' : A) (s s' : S) :
  @inr E (A * S) (a, s) = inr (a', s') -> s = s'.
Proof. intros H. by inversion H. Qed.

Lemma RangeCheck_true {A} (l : list A) i :
  RangeCheck l i = true <-> (0 <= i < Z.of_nat (length l))%Z.
Proof.
  unfold RangeCheck. rewrite andb_true_iff, Z.leb_le, Nat.ltb_lt. lia.
Qed.

Lemma TArray_modify_ok {A} i (f : A -> A) l :
  (0 <= i < Z.of_nat (length l))%Z ->
  TArray_modify i f l = inr (alter f (Z.to_nat i) l).
Proof.
  intros H. unfold TArray_modify. apply RangeCheck_true in H. by rewrite H.
Qed.

Lemma TArray_modify_oob {A} i (f : A -> A) l :
  ~ (0 <= i < Z.of_nat (length l))%Z ->
  TArray_modify i f l = inl (IndexOutOfBounds i (Z.of_nat (length l))).
Proof.
  intros H. unfold TArray_modify.
  destruct (RangeCheck l i) eqn:E; [apply RangeCheck_true in E; lia | done].
Qed.

Lemma int32_incr_ok {S} (x : Z) (s : S) :
  (x < MAX_int32)%Z -> int32_incr x s = inr (x + 1, s)%Z.
Proof.
  intros H. unfold int32_incr. by rewrite (proj2 (Z.ltb_lt _ _) H).
Qed.

Lemma int32_incr_overflow {S} (x : Z) (s : S) :
  (MAX_int32 <= x)%Z -> int32_incr x s = inl SignedOverflow.
Proof.
  intros H. unfold int32_incr.
  by rewrite (proj2 (Z.ltb_ge _ _) H).
Qed.

Lemma split_at {A} (l : list A) (i : nat) :
  (i <= length l)%nat -> exists pre rest, l = pre ++ rest /\ length pre = i.
Proof.
  intros H. exists (take i l), (drop i l). split; [by rewrite take_drop |].
  rewrite length_take. lia.
Qed.

Lemma length_AddUninitialized {A} (junk : nat -> A) n l :
  length (AddUninitialized junk n l) = (length l + n)%nat.
Proof. unfold AddUninitialized. by rewrite length_app, length_map, length_seq. Qed.

#[export] Hint Rewrite @length_alter @length_app @length_map @length_seq
  @length_AddUninitialized @length_take @length_drop : mesh_len.

(** ** Tactics *)

(** Split the list [l], known to have at least [n] cells, into [n]
    named cells and a tail, so that accesses at constant indices
    compute. *)
Ltac explode_list l n :=
  lazymatch n with
  | O => idtac
  | S ?n' =>
      let x := fresh "c" in
      let l' := fresh l in
      destruct l as [|x l'];
        [autorewrite with mesh_len in *; simpl in *; lia | explode_list l' n']
  end.

(** Symbolic execution of one bind whose first computation is known to
    succeed (or fail) by a lemma. *)
Ltac mstep lem :=
  first [ erewrite mbind_inr by (apply lem; autorewrite with mesh_len; simpl; unfold MAX_int32 in *; lia)
        | erewrite mbind_inl by (apply lem; autorewrite with mesh_len; simpl; unfold MAX_int32 in *; lia) ];
  cbv beta.

(** The nat offset [k] of an index [base + 1 + ... + 1]. *)
Ltac offset_of e :=
  lazymatch e with
  | (?e' + 1)%Z => let k := offset_of e' in constr:(S k)
  | _ => constr:(O)
  end.

(** Rewrite every [Z.to_nat (base + 1 + ... + 1) - length pre] into the
    constant it is, so that the writes at those positions compute. *)
Ltac norm_offsets :=
  repeat match goal with
  | |- context [(Z.to_nat ?e - length ?p)%nat] =>
      let k := offset_of e in
      replace (Z.to_nat e - length p)%nat with k by lia
  end.

(** Decompose an equation between constructor terms, closing the
    integer leaves with [lia]. *)
Ltac congr_lia :=
  repeat match goal with
  | |- ?x = ?x => reflexivity
  | |- @eq Z _ _ => lia
  | |- @eq nat _ _ => lia
  | |- _ = _ => f_equal
  end.

(** Close a length goal. *)
Ltac len := autorewrite with mesh_len in *; simpl in *; lia.
