(* ===== verification/Vector.v ===== *)
(** * Engine value types used by [TableActor.cpp]

    [FVector], [FVector2D], [FBox], [FColor], [FPackedNormal] and the
    vertex struct [FRuntimeMeshVertexSimple], over a scalar type [R]
    that stands for C++ [float].  [FloatOps] is the interface of the
    scalar: the operations the source applies to floats.  The component
    theorems that do not depend on arithmetic are proved for every
    instance (so for IEEE [float] as well); [Geometry] instantiates it
    with exact rationals. *)

From S2P Require Import Prelude.
From Stdlib Require Import QArith_base.
Close Scope Q_scope.

(** The float operations the source performs.  [flit q] is the source
    literal [q] ([2.0f], [2.5f], or an [int] such as [5] or [-1]
    converted to [float]). *)
Class FloatOps (R : Type) := {
  fadd : R -> R -> R;
  fsub : R -> R -> R;
  fmul : R -> R -> R;
  fdiv : R -> R -> R;
  fneg : R -> R;
  flit : Q -> R
}.

Section Types.
Context {R : Type} `{FloatOps R}.

(** [struct FVector { float X, Y, Z; }] *)
Record FVector : Type := mkFVector { vX : R; vY : R; vZ : R }.

(** [struct FVector2D { float X, Y; }] *)
Record FVector2D : Type := mkFVector2D { uvX : R; uvY : R }.

(** [struct FBox { FVector Min, Max; uint8 IsValid; }] *)
Record FBox : Type := mkFBox { BoxMin : FVector; BoxMax : FVector }.

(** [FPackedNormal]: the vector it was assigned from.  The engine
    quantises it to bytes; the quantisation is not modelled (it is
    injective on the six axis vectors the code assigns). *)
Record FPackedNormal : Type := mkFPackedNormal { Unpacked : FVector }.

(** [FPackedNormal::operator=(const FVector&)] *)
Definition PackNormal (v : FVector) : FPackedNormal := mkFPackedNormal v.

(** [FVector(int X, int Y, int Z)]: integer literals converted to float. *)
Definition FVector_of_ints (x y z : Z) : FVector :=
  mkFVector (flit (inject_Z x)) (flit (inject_Z y)) (flit (inject_Z z)).

(** [FVector::operator-() const] *)
Definition FVector_neg (v : FVector) : FVector :=
  mkFVector (fneg (vX v)) (fneg (vY v)) (fneg (vZ v)).

(** [FVector::operator/(float Scale) const]: multiplies by the
    reciprocal, as the engine does. *)
Definition FVector_div (v : FVector) (Scale : R) : FVector :=
  let RScale := fdiv (flit 1) Scale in
  mkFVector (fmul (vX v) RScale) (fmul (vY v) RScale) (fmul (vZ v) RScale).

(** [FBox(const FVector& InMin, const FVector& InMax)] *)
Definition FBox_make (InMin InMax : FVector) : FBox := mkFBox InMin InMax.
End Types.

Arguments FVector R : clear implicits.
Arguments FVector2D R : clear implicits.
Arguments FBox R : clear implicits.
Arguments FPackedNormal R : clear implicits.

(** Decidable equality of the value types, for a scalar with decidable
    equality (an IEEE [float] compared bit for bit, or [Q]). *)
#[export] Instance FVector_eq_dec {R} `{EqDecision R} : EqDecision (FVector R).
Proof. solve_decision. Defined.
#[export] Instance FVector2D_eq_dec {R} `{EqDecision R} : EqDecision (FVector2D R).
Proof. solve_decision. Defined.
#[export] Instance FPackedNormal_eq_dec {R} `{EqDecision R} : EqDecision (FPackedNormal R).
Proof. solve_decision. Defined.

(** [struct FColor { uint8 B, G, R, A; }] *)
Record FColor : Type := mkFColor { ColB : Z; ColG : Z; ColR : Z; ColA : Z }.

(** [struct FRuntimeMeshVertexSimple]: the fields the code writes, and
    [Color], which it never writes. *)
Record FRuntimeMeshVertexSimple (R : Type) : Type := mkVertex {
  Position : FVector R;
  Normal : FPackedNormal R;
  Tangent : FPackedNormal R;
  Color : FColor;
  UV0 : FVector2D R
}.

Arguments mkVertex {R}.
Arguments Position {R}.
Arguments Normal {R}.
Arguments Tangent {R}.
Arguments Color {R}.
Arguments UV0 {R}.

Section Fields.
Context {R : Type}.
Abbreviation Vertex := (FRuntimeMeshVertexSimple R).

(** Single-field assignments [V.Position = p] and so on. *)
Definition set_Position (p : FVector R) (v : Vertex) : Vertex :=
  mkVertex p (Normal v) (Tangent v) (Color v) (UV0 v).
Definition set_UV0 (uv : FVector2D R) (v : Vertex) : Vertex :=
  mkVertex (Position v) (Normal v) (Tangent v) (Color v) uv.
Definition set_Normal (n : FPackedNormal R) (v : Vertex) : Vertex :=
  mkVertex (Position v) n (Tangent v) (Color v) (UV0 v).
Definition set_Tangent (t : FPackedNormal R) (v : Vertex) : Vertex :=
  mkVertex (Position v) (Normal v) t (Color v) (UV0 v).

(** The attributes the mesh code writes into a vertex: everything but
    the colour. *)
Record VertexAttrs : Type := mkAttrs {
  a_Position : FVector R;
  a_UV0 : FVector2D R;
  a_Normal : FPackedNormal R;
  a_Tangent : FPackedNormal R
}.

(** A vertex carrying the attributes [a] and the colour of [v]. *)
Definition with_attrs (a : VertexAttrs) (v : Vertex) : Vertex :=
  mkVertex (a_Position a) (a_Normal a) (a_Tangent a) (Color v) (a_UV0 a).

Definition attrs_of (v : Vertex) : VertexAttrs :=
  mkAttrs (Position v) (UV0 v) (Normal v) (Tangent v).

Lemma attrs_of_with_attrs a v : attrs_of (with_attrs a v) = a.
Proof. by destruct a. Qed.

Lemma Color_with_attrs a v : Color (with_attrs a v) = Color v.
Proof. reflexivity. Qed.

Lemma with_attrs_idem a b v : with_attrs a (with_attrs b v) = with_attrs a v.
Proof. reflexivity. Qed.
End Fields.

Arguments VertexAttrs R : clear implicits.

#[export] Hint Rewrite @attrs_of_with_attrs @Color_with_attrs @with_attrs_idem
  : mesh_len.

(** The exact-rational scalar: C++ [float] arithmetic without rounding.
    Halving, the only division the mesh code performs on sizes, is
    exact in binary floating point too (away from underflow). *)
#[export] Instance FloatOps_Q : FloatOps Q := {|
  fadd := Qplus; fsub := Qminus; fmul := Qmult; fdiv := Qdiv; fneg := Qopp;
  flit := fun q => q
|}.

(** Leibniz equality of [Q] (numerator and denominator), which stdpp
    does not provide. *)
#[export] Instance Q_eq_dec : EqDecision Q.
Proof. solve_decision. Defined.

(** A vertex of zeros, the contents used for concrete buffers below. *)
Definition zero_vector : FVector Q := mkFVector 0%Q 0%Q 0%Q.
Definition zero_vertex : FRuntimeMeshVertexSimple Q :=
  mkVertex zero_vector (PackNormal zero_vector) (PackNormal zero_vector)
    (mkFColor 0 0 0 0) (mkFVector2D 0%Q 0%Q).
