(* ===== verification/Quad.v ===== *)
(** * [ATableActor::BuildQuad]

    The two caller-owned arrays [InVertices] and [InTriangles] are the
    state [MeshBuffers] of the monad [M]; the [int32&] offsets are
    passed in and their final values returned.  Every statement of the
    C++ body is one step, in the source's order, with the range checks
    of [TArray::operator[]] and the overflow of [x++] as faults.

    [quad_attrs] and [quad_indices] are what one call must write, and
    [write_attrs] and stdpp's [list_inserts] the buffers after the write; the theorems
    give the result of every call, successful or faulty. *)

From S2P Require Import Prelude Vector.
From Stdlib Require Import QArith_base.
Close Scope Q_scope.

Section Quad.
Context {R : Type} `{FloatOps R}.
Abbreviation Vertex := (FRuntimeMeshVertexSimple R).

(** The two [TArray]s passed by reference. *)
Record MeshBuffers : Type := mkBuffers {
  InVertices : list Vertex;
  InTriangles : list Z
}.

(** [InVertices[Index].Field = v]. *)
Definition set_vertex (Index : Z) (f : Vertex -> Vertex) : M MeshBuffers unit :=
  fun b => match TArray_modify Index f (InVertices b) with
           | inl e => inl e
           | inr vs => inr (tt, mkBuffers vs (InTriangles b))
           end.

(** [InTriangles[TriangleOffset++] = Value]: the operand of [operator[]]
    is evaluated (and the offset incremented) before the range check;
    the new offset is returned. *)
Definition set_triangle_post_incr (TriangleOffset Value : Z) : M MeshBuffers Z :=
  NewOffset <- int32_incr TriangleOffset ;;
  (fun b => match TArray_modify TriangleOffset (fun _ => Value) (InTriangles b) with
            | inl e => inl e
            | inr ts => inr (tt, mkBuffers (InVertices b) ts)
            end) ;;
  mret NewOffset.

Definition UV (u v : Q) : FVector2D R := mkFVector2D (flit u) (flit v).

(** [void BuildQuad(..., int32& VertexOffset, int32& TriangleOffset,
    FPackedNormal Normal, FPackedNormal Tangent)]; the result is the
    final value of the two offsets. *)
Definition BuildQuad (BottomLeft BottomRight TopRight TopLeft : FVector R)
    (VertexOffset TriangleOffset : Z) (Normal Tangent : FPackedNormal R)
    : M MeshBuffers (Z * Z) :=
  let Index1 := VertexOffset in VertexOffset <- int32_incr VertexOffset ;;
  let Index2 := VertexOffset in VertexOffset <- int32_incr VertexOffset ;;
  let Index3 := VertexOffset in VertexOffset <- int32_incr VertexOffset ;;
  let Index4 := VertexOffset in VertexOffset <- int32_incr VertexOffset ;;
  set_vertex Index1 (set_Position BottomLeft) ;;
  set_vertex Index2 (set_Position BottomRight) ;;
  set_vertex Index3 (set_Position TopRight) ;;
  set_vertex Index4 (set_Position TopLeft) ;;
  set_vertex Index1 (set_UV0 (UV 0 1)) ;;
  set_vertex Index2 (set_UV0 (UV 1 1)) ;;
  set_vertex Index3 (set_UV0 (UV 1 0)) ;;
  set_vertex Index4 (set_UV0 (UV 0 0)) ;;
  TriangleOffset <- set_triangle_post_incr TriangleOffset Index1 ;;
  TriangleOffset <- set_triangle_post_incr TriangleOffset Index2 ;;
  TriangleOffset <- set_triangle_post_incr TriangleOffset Index3 ;;
  TriangleOffset <- set_triangle_post_incr TriangleOffset Index1 ;;
  TriangleOffset <- set_triangle_post_incr TriangleOffset Index3 ;;
  TriangleOffset <- set_triangle_post_incr TriangleOffset Index4 ;;
  (* the chained assignments evaluate right to left *)
  set_vertex Index4 (set_Normal Normal) ;;
  set_vertex Index3 (set_Normal Normal) ;;
  set_vertex Index2 (set_Normal Normal) ;;
  set_vertex Index1 (set_Normal Normal) ;;
  set_vertex Index4 (set_Tangent Tangent) ;;
  set_vertex Index3 (set_Tangent Tangent) ;;
  set_vertex Index2 (set_Tangent Tangent) ;;
  set_vertex Index1 (set_Tangent Tangent) ;;
  mret (VertexOffset, TriangleOffset).

(** ** What one quad is *)

(** The four vertices of a quad: positions in the order given, the
    fixed unit-square UVs, and one normal and tangent shared by all. *)
Definition quad_attrs (BottomLeft BottomRight TopRight TopLeft : FVector R)
    (Normal Tangent : FPackedNormal R) : list (VertexAttrs R) :=
  [ mkAttrs BottomLeft (UV 0 1) Normal Tangent;
    mkAttrs BottomRight (UV 1 1) Normal Tangent;
    mkAttrs TopRight (UV 1 0) Normal Tangent;
    mkAttrs TopLeft (UV 0 0) Normal Tangent ].

(** The two triangles 0-1-2 and 0-2-3 of a quad whose first vertex is
    at [base]. *)
Definition quad_indices (base : Z) : list Z :=
  [base; base + 1; base + 2; base; base + 2; base + 3]%Z.

(** [l] with the cells from [i] on given the attributes [attrs] (their
    colour is kept). *)
Definition write_attrs (i : nat) (attrs : list (VertexAttrs R)) (l : list Vertex)
    : list Vertex :=
  take i l ++ zip_with with_attrs attrs (take (length attrs) (drop i l))
    ++ drop (i + length attrs) l.


Lemma InVertices_mkBuffers V T : InVertices (mkBuffers V T) = V.
Proof. reflexivity. Qed.
Lemma InTriangles_mkBuffers V T : InTriangles (mkBuffers V T) = T.
Proof. reflexivity. Qed.

(** ** Steps of the program on a split buffer *)

Lemma set_vertex_at (pre l : list Vertex) T idx f :
  (Z.of_nat (length pre) <= idx < Z.of_nat (length pre + length l))%Z ->
  set_vertex idx f (mkBuffers (pre ++ l) T)
  = inr (tt, mkBuffers (pre ++ alter f (Z.to_nat idx - length pre) l) T).
Proof.
  intros Hr. unfold set_vertex. simpl.
  rewrite TArray_modify_ok by len.
  rewrite alter_app_r_alt by lia. reflexivity.
Qed.

Lemma set_vertex_oob (V : list Vertex) T idx f :
  ~ (0 <= idx < Z.of_nat (length V))%Z ->
  set_vertex idx f (mkBuffers V T)
  = inl (IndexOutOfBounds idx (Z.of_nat (length V))).
Proof. intros Hr. unfold set_vertex. simpl. by rewrite TArray_modify_oob. Qed.

Lemma set_triangle_at V (pre l : list Z) idx x :
  (Z.of_nat (length pre) <= idx < Z.of_nat (length pre + length l))%Z ->
  (idx < MAX_int32)%Z ->
  set_triangle_post_incr idx x (mkBuffers V (pre ++ l))
  = inr ((idx + 1)%Z,
         mkBuffers V (pre ++ alter (fun _ => x) (Z.to_nat idx - length pre)%nat l)).
Proof.
  intros Hr Hm. unfold set_triangle_post_incr.
  rewrite (mbind_inr _ _ _ _ _ (int32_incr_ok _ _ Hm)).
  unfold mbind. simpl. rewrite TArray_modify_ok by len.
  rewrite alter_app_r_alt by lia. reflexivity.
Qed.

Lemma set_triangle_oob V (T : list Z) idx x :
  ~ (0 <= idx < Z.of_nat (length T))%Z ->
  (idx < MAX_int32)%Z ->
  set_triangle_post_incr idx x (mkBuffers V T)
  = inl (IndexOutOfBounds idx (Z.of_nat (length T))).
Proof.
  intros Hr Hm. unfold set_triangle_post_incr.
  rewrite (mbind_inr _ _ _ _ _ (int32_incr_ok _ _ Hm)).
  unfold mbind. simpl. by rewrite TArray_modify_oob.
Qed.

Lemma write_attrs_app (pre l : list Vertex) attrs :
  write_attrs (length pre) attrs (pre ++ l) = pre ++ write_attrs 0 attrs l.
Proof.
  unfold write_attrs. rewrite take_app_length, drop_app_length.
  rewrite drop_app_add. reflexivity.
Qed.

Lemma list_inserts_app_length {A} (pre l xs : list A) :
  list_inserts (length pre) xs (pre ++ l) = pre ++ list_inserts 0 xs l.
Proof. rewrite <- list_inserts_app_r. f_equal. lia. Qed.

Lemma length_write_attrs i attrs (l : list Vertex) :
  length (write_attrs i attrs l) = length l.
Proof.
  unfold write_attrs. rewrite !length_app, length_zip_with, !length_take,
    !length_drop. lia.
Qed.
Lemma write_attrs_0_app attrs (m rest : list Vertex) :
  length m = length attrs ->
  write_attrs 0 attrs (m ++ rest) = zip_with with_attrs attrs m ++ rest.
Proof.
  intros Hm. unfold write_attrs. rewrite drop_0. simpl.
rewrite take_app_length' by lia. rewrite drop_app_length' by lia.
reflexivity.
Qed.

(** Two successive writes of adjacent blocks are one write of their
    concatenation. *)
Lemma write_attrs_compose i j a b (l : list Vertex) :
  j = (i + length a)%nat -> (i + length a + length b <= length l)%nat ->
  write_attrs j b (write_attrs i a l) = write_attrs i (a ++ b) l.
Proof.
  intros -> Hl.
  destruct (split_at l i) as (p & r & -> & <-); [lia |].
  destruct (split_at r (length a)) as (m & r' & -> & Hm); [len |].
  destruct (split_at r' (length b)) as (n & r'' & -> & Hn); [len |].
  rewrite !write_attrs_app, write_attrs_0_app by done.
  rewrite app_assoc.
  replace (length p + length a)%nat with (length (p ++ zip_with with_attrs a m))
    by (rewrite length_app, length_zip_with; lia).
  rewrite write_attrs_app, write_attrs_0_app by done.
  rewrite (app_assoc m n r''), write_attrs_0_app by (rewrite !length_app; lia).
  rewrite zip_with_app by lia. by rewrite <- !app_assoc.
Qed.

Lemma map_attrs_of_zip attrs (m : list Vertex) :
  length m = length attrs -> map attrs_of (zip_with with_attrs attrs m) = attrs.
Proof.
  revert m. induction attrs; intros [|v m] Hm; simpl in *; try done.
  rewrite attrs_of_with_attrs, IHattrs; [done | lia].
Qed.

Lemma map_Color_zip attrs (m : list Vertex) :
  map Color (zip_with with_attrs attrs m) = map Color (take (length attrs) m).
Proof. revert m. induction attrs; intros [|v m]; simpl; rewrite ?IHattrs; done. Qed.

(** Reading back a block written at the front. *)
Lemma write_attrs_0_split attrs (l : list Vertex) :
  (length attrs <= length l)%nat ->
  map attrs_of (take (length attrs) (write_attrs 0 attrs l)) = attrs /\
  drop (length attrs) (write_attrs 0 attrs l) = drop (length attrs) l.
Proof.
  intros Hl. destruct (split_at l (length attrs)) as (m & r & -> & Hm); [lia |].
  rewrite write_attrs_0_app by done.
  rewrite take_app_length', drop_app_length', drop_app_length'
    by (rewrite ?length_zip_with; lia).
  split; [by apply map_attrs_of_zip | done].
Qed.

(** The colours are never written. *)
Lemma map_Color_write_attrs i attrs (l : list Vertex) :
  map Color (write_attrs i attrs l) = map Color l.
Proof.
  unfold write_attrs. rewrite !map_app, map_Color_zip, take_take, Nat.min_id.
  rewrite <- !map_app, <- drop_drop, !take_drop. done.
Qed.

Lemma list_inserts_0_split {A} (k l : list A) :
  (length k <= length l)%nat ->
  take (length k) (list_inserts 0 k l) = k /\
  drop (length k) (list_inserts 0 k l) = drop (length k) l.
Proof.
  intros Hl. destruct (split_at l (length k)) as (m & r & -> & Hm); [lia |].
  rewrite list_inserts_0_r by done.
  rewrite take_app_length, drop_app_length, drop_app_length'; done.
Qed.

Lemma list_inserts_compose {A} i j (k1 k2 l : list A) :
  j = (i + length k1)%nat ->
  list_inserts j k2 (list_inserts i k1 l) = list_inserts i (k1 ++ k2) l.
Proof. intros ->. rewrite list_inserts_app_l. f_equal. lia. Qed.
End Quad.

Arguments MeshBuffers R : clear implicits.

#[export] Hint Rewrite @InVertices_mkBuffers @InTriangles_mkBuffers @write_attrs_app @list_inserts_app_length @length_write_attrs
  @length_inserts : mesh_len.

(** Run the straight-line body of [BuildQuad] step by step, up to the
    end or to the first fault. *)
Ltac run_steps :=
  repeat first [ mstep int32_incr_ok | mstep set_vertex_at
               | mstep set_triangle_at | mstep int32_incr_overflow
               | mstep set_vertex_oob | mstep set_triangle_oob ].

Section QuadSpec.
Context {R : Type} `{FloatOps R}.

Lemma BuildQuad_correct BL BR TR TL vo to N T (b : MeshBuffers R) :
  (0 <= vo)%Z -> (vo + 4 <= Z.of_nat (length (InVertices b)))%Z ->
  (vo + 4 <= MAX_int32)%Z ->
  (0 <= to)%Z -> (to + 6 <= Z.of_nat (length (InTriangles b)))%Z ->
  (to + 6 <= MAX_int32)%Z ->
  BuildQuad BL BR TR TL vo to N T b =
  inr ((vo + 4, to + 6)%Z,
       mkBuffers (write_attrs (Z.to_nat vo) (quad_attrs BL BR TR TL N T) (InVertices b))
                 (list_inserts (Z.to_nat to) (quad_indices vo) (InTriangles b))).
Proof.
  destruct b as [V Tr]; cbn [InVertices InTriangles]; intros ? ? ? ? ? ?.
  destruct (split_at V (Z.to_nat vo)) as (pre & rest & -> & Hp); [lia |].
  destruct (split_at Tr (Z.to_nat to)) as (tpre & trest & -> & Htp); [lia |].
  explode_list rest 4%nat. explode_list trest 6%nat.
  assert (vo = Z.of_nat (length pre)) as -> by lia.
  assert (to = Z.of_nat (length tpre)) as -> by lia.
  rewrite Nat2Z.id, Nat2Z.id. unfold BuildQuad.
  run_steps. norm_offsets. autorewrite with mesh_len.
  unfold mret, write_attrs; simpl. congr_lia.
Qed.

(** C6. With both offsets in range and the increments below [MAX_int32],
    [BuildQuad] writes the quad's four vertices (positions in order,
    unit-square UVs, shared normal and tangent) from [VertexOffset] and
    the triangles 0-1-2 and 0-2-3 from [TriangleOffset], touching
    nothing else, and advances the offsets by 4 and 6. *)
Theorem BuildQuad_spec BL BR TR TL vo to N T (b : MeshBuffers R) :
  (0 <= vo)%Z -> (vo + 4 <= Z.of_nat (length (InVertices b)))%Z ->
  (vo + 4 <= MAX_int32)%Z ->
  (0 <= to)%Z -> (to + 6 <= Z.of_nat (length (InTriangles b)))%Z ->
  (to + 6 <= MAX_int32)%Z ->
  BuildQuad BL BR TR TL vo to N T b =
  inr ((vo + 4, to + 6)%Z,
       mkBuffers (write_attrs (Z.to_nat vo) (quad_attrs BL BR TR TL N T) (InVertices b))
                 (list_inserts (Z.to_nat to) (quad_indices vo) (InTriangles b))).
Proof. apply BuildQuad_correct. Qed.

(** C33. Computing the four vertex indices overflows [VertexOffset] when it
    is within 3 of [MAX_int32]; nothing has been written then. *)
Theorem BuildQuad_overflow BL BR TR TL vo to N T (b : MeshBuffers R) :
  (MAX_int32 - 3 <= vo <= MAX_int32)%Z ->
  BuildQuad BL BR TR TL vo to N T b = inl SignedOverflow.
Proof.
  intros Hv. unfold BuildQuad.
  assert (vo = MAX_int32 - 3 \/ vo = MAX_int32 - 2 \/ vo = MAX_int32 - 1
          \/ vo = MAX_int32)%Z as [-> | [-> | [-> | ->]]] by lia;
    run_steps; reflexivity.
Qed.

Lemma BuildQuad_vertex_fault BL BR TR TL vo to N T (b : MeshBuffers R) :
  (0 <= vo)%Z -> (vo + 3 < MAX_int32)%Z ->
  (Z.of_nat (length (InVertices b)) < vo + 4)%Z ->
  BuildQuad BL BR TR TL vo to N T b =
  inl (IndexOutOfBounds (Z.max vo (Z.of_nat (length (InVertices b))))
                        (Z.of_nat (length (InVertices b)))).
Proof.
  destruct b as [V Tr]; simpl; intros ? ? ?. unfold BuildQuad.
  destruct (Z_lt_le_dec vo (Z.of_nat (length V))) as [Hlt | Hge].
  - destruct (split_at V (Z.to_nat vo)) as (pre & rest & -> & Hp); [lia |].
    assert (vo = Z.of_nat (length pre)) as -> by lia.
    destruct rest as [|c1 [|c2 [|c3 [|c4 rest]]]]; try (len);
      run_steps; autorewrite with mesh_len; simpl; congr_lia.
  - run_steps. congr_lia.
Qed.

(** C34. When the vertex buffer is too short, the first position write
    past its end faults, at index [max VertexOffset ArrayNum]. *)
Theorem BuildQuad_vertex_oob BL BR TR TL vo to N T (b : MeshBuffers R) :
  (0 <= vo)%Z -> (vo + 3 < MAX_int32)%Z ->
  (Z.of_nat (length (InVertices b)) < vo + 4)%Z ->
  BuildQuad BL BR TR TL vo to N T b =
  inl (IndexOutOfBounds (Z.max vo (Z.of_nat (length (InVertices b))))
                        (Z.of_nat (length (InVertices b)))).
Proof. apply BuildQuad_vertex_fault. Qed.

Lemma BuildQuad_triangle_fault BL BR TR TL vo to N T (b : MeshBuffers R) :
  (0 <= vo)%Z -> (vo + 4 <= Z.of_nat (length (InVertices b)))%Z ->
  (vo + 4 <= MAX_int32)%Z ->
  (0 <= to)%Z -> (to + 5 < MAX_int32)%Z ->
  (Z.of_nat (length (InTriangles b)) < to + 6)%Z ->
  BuildQuad BL BR TR TL vo to N T b =
  inl (IndexOutOfBounds (Z.max to (Z.of_nat (length (InTriangles b))))
                        (Z.of_nat (length (InTriangles b)))).
Proof.
  destruct b as [V Tr]; simpl; intros ? ? ? ? ? ?. unfold BuildQuad.
  destruct (split_at V (Z.to_nat vo)) as (pre & rest & -> & Hp); [lia |].
  assert (vo = Z.of_nat (length pre)) as -> by lia.
  explode_list rest 4%nat.
  destruct (Z_lt_le_dec to (Z.of_nat (length Tr))) as [Hlt | Hge].
  - destruct (split_at Tr (Z.to_nat to)) as (tpre & trest & -> & Htp); [lia |].
    assert (to = Z.of_nat (length tpre)) as -> by lia.
    destruct trest as [|t1 [|t2 [|t3 [|t4 [|t5 [|t6 trest]]]]]]; try (len);
      run_steps; autorewrite with mesh_len; simpl; congr_lia.
  - run_steps. congr_lia.
Qed.

(** C35. With the vertices in range, a triangle buffer that is too short
    faults at the first index write past its end. *)
Theorem BuildQuad_triangle_oob BL BR TR TL vo to N T (b : MeshBuffers R) :
  (0 <= vo)%Z -> (vo + 4 <= Z.of_nat (length (InVertices b)))%Z ->
  (vo + 4 <= MAX_int32)%Z ->
  (0 <= to)%Z -> (to + 5 < MAX_int32)%Z ->
  (Z.of_nat (length (InTriangles b)) < to + 6)%Z ->
  BuildQuad BL BR TR TL vo to N T b =
  inl (IndexOutOfBounds (Z.max to (Z.of_nat (length (InTriangles b))))
                        (Z.of_nat (length (InTriangles b)))).
Proof. apply BuildQuad_triangle_fault. Qed.
End QuadSpec.

(** ** Witnesses at concrete inputs *)

Lemma BuildQuad_spec_witness :
  BuildQuad zero_vector zero_vector zero_vector zero_vector 0 0
    (PackNormal zero_vector) (PackNormal zero_vector)
    (mkBuffers (repeat zero_vertex 4) (repeat 0%Z 6))
  = inr ((4, 6)%Z,
         mkBuffers (write_attrs 0 (quad_attrs zero_vector zero_vector zero_vector zero_vector
                                   (PackNormal zero_vector) (PackNormal zero_vector))
                     (repeat zero_vertex 4))
                   (list_inserts 0 (quad_indices 0) (repeat 0%Z 6))).
Proof. apply BuildQuad_spec; simpl; unfold MAX_int32; lia. Defined.

Lemma BuildQuad_overflow_witness :
  BuildQuad (R := Q) zero_vector zero_vector zero_vector zero_vector (MAX_int32 - 1) 0
    (PackNormal zero_vector) (PackNormal zero_vector) (mkBuffers [] []) = inl SignedOverflow.
Proof. apply BuildQuad_overflow. lia. Defined.

Lemma BuildQuad_vertex_oob_witness :
  BuildQuad zero_vector zero_vector zero_vector zero_vector 2 0
    (PackNormal zero_vector) (PackNormal zero_vector)
    (mkBuffers (repeat zero_vertex 4) (repeat 0%Z 6)) = inl (IndexOutOfBounds 4 4).
Proof. apply (BuildQuad_vertex_oob _ _ _ _ 2 0); simpl; unfold MAX_int32; lia. Defined.

Lemma BuildQuad_triangle_oob_witness :
  BuildQuad zero_vector zero_vector zero_vector zero_vector 0 3
    (PackNormal zero_vector) (PackNormal zero_vector)
    (mkBuffers (repeat zero_vertex 4) (repeat 0%Z 6)) = inl (IndexOutOfBounds 6 6).
Proof. apply (BuildQuad_triangle_oob _ _ _ _ 0 3); simpl; unfold MAX_int32; lia. Defined.
