(* ===== verification/Cube.v ===== *)
(** * [ATableActor::GenerateCube]

    [GenerateCube] as the source writes it: half extents, the eight
    corners [p0 .. p7] as [let]s, and six calls of [BuildQuad] threading
    the two offsets from 0.  Beside it, the box it must produce: the
    corner labelling ([Corner], [corner]), the face table ([Face],
    [face_corners], [face_normal], [face_tangent]) and the resulting
    attributes and indices ([box_attrs], [box_indices]).  The refinement
    theorem [GenerateCube_correct] says that the program writes exactly
    that box into the first 24 and 36 cells, and nothing else; the
    fault theorem gives the first failing write when a buffer is too
    short. *)

From S2P Require Import Prelude Vector Quad.
From Stdlib Require Import QArith_base.
Close Scope Q_scope.

Section Cube.
Context {R : Type} `{FloatOps R}.

(** [void GenerateCube(TArray<FRuntimeMeshVertexSimple>& InVertices,
    TArray<int32>& InTriangles, FVector InSize, FVector OffsetPos)] *)
Definition GenerateCube (InSize OffsetPos : FVector R) : M (MeshBuffers R) unit :=
  let OffsetX := fdiv (vX InSize) (flit 2) in
  let OffsetY := fdiv (vY InSize) (flit 2) in
  let OffsetZ := fdiv (vZ InSize) (flit 2) in
  let p0 := mkFVector (fadd OffsetX (vX OffsetPos)) (fadd OffsetY (vY OffsetPos))
                      (fadd (fneg OffsetZ) (vZ OffsetPos)) in
  let p1 := mkFVector (fadd OffsetX (vX OffsetPos)) (fadd (fneg OffsetY) (vY OffsetPos))
                      (fadd (fneg OffsetZ) (vZ OffsetPos)) in
  let p2 := mkFVector (fadd OffsetX (vX OffsetPos)) (fadd (fneg OffsetY) (vY OffsetPos))
                      (fadd OffsetZ (vZ OffsetPos)) in
  let p3 := mkFVector (fadd OffsetX (vX OffsetPos)) (fadd OffsetY (vY OffsetPos))
                      (fadd OffsetZ (vZ OffsetPos)) in
  let p4 := mkFVector (fadd (fneg OffsetX) (vX OffsetPos)) (fadd OffsetY (vY OffsetPos))
                      (fadd (fneg OffsetZ) (vZ OffsetPos)) in
  let p5 := mkFVector (fadd (fneg OffsetX) (vX OffsetPos)) (fadd (fneg OffsetY) (vY OffsetPos))
                      (fadd (fneg OffsetZ) (vZ OffsetPos)) in
  let p6 := mkFVector (fadd (fneg OffsetX) (vX OffsetPos)) (fadd (fneg OffsetY) (vY OffsetPos))
                      (fadd OffsetZ (vZ OffsetPos)) in
  let p7 := mkFVector (fadd (fneg OffsetX) (vX OffsetPos)) (fadd OffsetY (vY OffsetPos))
                      (fadd OffsetZ (vZ OffsetPos)) in
  let VertexOffset := 0%Z in
  let TriangleOffset := 0%Z in
  (* Front (+X) face: 0-1-2-3 *)
  let Normal := PackNormal (FVector_of_ints 1 0 0) in
  let Tangent := PackNormal (FVector_of_ints 0 1 0) in
  o <- BuildQuad p0 p1 p2 p3 VertexOffset TriangleOffset Normal Tangent ;;
  let '(VertexOffset, TriangleOffset) := o in
  (* Back (-X) face: 5-4-7-6 *)
  let Normal := PackNormal (FVector_of_ints (-1) 0 0) in
  let Tangent := PackNormal (FVector_of_ints 0 (-1) 0) in
  o <- BuildQuad p5 p4 p7 p6 VertexOffset TriangleOffset Normal Tangent ;;
  let '(VertexOffset, TriangleOffset) := o in
  (* Left (-Y) face: 1-5-6-2 *)
  let Normal := PackNormal (FVector_of_ints 0 (-1) 0) in
  let Tangent := PackNormal (FVector_of_ints 1 0 0) in
  o <- BuildQuad p1 p5 p6 p2 VertexOffset TriangleOffset Normal Tangent ;;
  let '(VertexOffset, TriangleOffset) := o in
  (* Right (+Y) face: 4-0-3-7 *)
  let Normal := PackNormal (FVector_of_ints 0 1 0) in
  let Tangent := PackNormal (FVector_of_ints (-1) 0 0) in
  o <- BuildQuad p4 p0 p3 p7 VertexOffset TriangleOffset Normal Tangent ;;
  let '(VertexOffset, TriangleOffset) := o in
  (* Top (+Z) face: 6-7-3-2 *)
  let Normal := PackNormal (FVector_of_ints 0 0 1) in
  let Tangent := PackNormal (FVector_of_ints 0 1 0) in
  o <- BuildQuad p6 p7 p3 p2 VertexOffset TriangleOffset Normal Tangent ;;
  let '(VertexOffset, TriangleOffset) := o in
  (* Bottom (-Z) face: 1-0-4-5 *)
  let Normal := PackNormal (FVector_of_ints 0 0 (-1)) in
  let Tangent := PackNormal (FVector_of_ints 0 (-1) 0) in
  o <- BuildQuad p1 p0 p4 p5 VertexOffset TriangleOffset Normal Tangent ;;
  mret tt.

(** ** The box the code must build *)

(** The corner labels of the source, [p0 .. p7]. *)
Inductive Corner : Type := P0 | P1 | P2 | P3 | P4 | P5 | P6 | P7.

(** The signs of the half extents added to the offset at each corner. *)
Definition corner_signs (c : Corner) : bool * bool * bool :=
  match c with
  | P0 => (true, true, false)  | P1 => (true, false, false)
  | P2 => (true, false, true)  | P3 => (true, true, true)
  | P4 => (false, true, false) | P5 => (false, false, false)
  | P6 => (false, false, true) | P7 => (false, true, true)
  end.

Definition signed (b : bool) (x : R) : R := if b then x else fneg x.

Definition corner (InSize OffsetPos : FVector R) (c : Corner) : FVector R :=
  let '(sx, sy, sz) := corner_signs c in
  mkFVector (fadd (signed sx (fdiv (vX InSize) (flit 2))) (vX OffsetPos))
            (fadd (signed sy (fdiv (vY InSize) (flit 2))) (vY OffsetPos))
            (fadd (signed sz (fdiv (vZ InSize) (flit 2))) (vZ OffsetPos)).

(** The six faces, in the order the code builds them. *)
Inductive Face : Type := Front | Back | Left | Right | Top | Bottom.

Definition faces : list Face := [Front; Back; Left; Right; Top; Bottom].

(** Each face's corners, bottom-left first, counter-clockwise. *)
Definition face_corners (f : Face) : Corner * Corner * Corner * Corner :=
  match f with
  | Front => (P0, P1, P2, P3) | Back => (P5, P4, P7, P6)
  | Left => (P1, P5, P6, P2)  | Right => (P4, P0, P3, P7)
  | Top => (P6, P7, P3, P2)   | Bottom => (P1, P0, P4, P5)
  end.

Definition face_normal (f : Face) : Z * Z * Z :=
  match f with
  | Front => (1, 0, 0) | Back => (-1, 0, 0) | Left => (0, -1, 0)
  | Right => (0, 1, 0) | Top => (0, 0, 1)   | Bottom => (0, 0, -1)
  end%Z.

Definition face_tangent (f : Face) : Z * Z * Z :=
  match f with
  | Front => (0, 1, 0) | Back => (0, -1, 0) | Left => (1, 0, 0)
  | Right => (-1, 0, 0) | Top => (0, 1, 0)  | Bottom => (0, -1, 0)
  end%Z.

Definition vec_of (t : Z * Z * Z) : FVector R :=
  let '(x, y, z) := t in FVector_of_ints x y z.

(** The four vertices of one face. *)
Definition face_attrs (InSize OffsetPos : FVector R) (f : Face) : list (VertexAttrs R) :=
  let '(a, b, c, d) := face_corners f in
  let p := corner InSize OffsetPos in
  quad_attrs (p a) (p b) (p c) (p d)
    (PackNormal (vec_of (face_normal f))) (PackNormal (vec_of (face_tangent f))).

(** The 24 vertices of the box, face after face. *)
Definition box_attrs (InSize OffsetPos : FVector R) : list (VertexAttrs R) :=
  flat_map (face_attrs InSize OffsetPos) faces.

(** The 36 indices: face [k]'s two triangles over its own four
    vertices [4k .. 4k+3]. *)
Definition box_indices : list Z :=
  flat_map (fun k => quad_indices (4 * Z.of_nat k)) (seq 0 6).

(** Closed forms: the UV of the [k]-th corner of a quad, the face the
    [i]-th vertex of the box belongs to, and the corner a face puts in
    its [k]-th place. *)
Definition quad_uv (k : nat) : FVector2D R :=
  nth k [UV 0 1; UV 1 1; UV 1 0; UV 0 0] (UV 0 0).

Definition face_of_vertex (i : nat) : Face := nth (i / 4) faces Front.

Definition face_corner (f : Face) (k : nat) : Corner :=
  let '(a, b, c, d) := face_corners f in nth k [a; b; c; d] a.

Definition vertex_attrs (InSize OffsetPos : FVector R) (i : nat) : VertexAttrs R :=
  let f := face_of_vertex i in
  mkAttrs (corner InSize OffsetPos (face_corner f (i mod 4))) (quad_uv (i mod 4))
    (PackNormal (vec_of (face_normal f))) (PackNormal (vec_of (face_tangent f))).
End Cube.

(** The fault [GenerateCube] stops with on buffers of [n] vertices and
    [m] indices that are too short: the first write past an end, in
    program order.  Face [k] writes vertices [4k .. 4k+3] and then
    indices [6k .. 6k+5], so the vertex buffer runs out first exactly
    when [n / 4 <= m / 6]. *)
Definition cube_fault (n m : nat) : Fault :=
  if (n / 4 <=? m / 6)%nat then IndexOutOfBounds (Z.of_nat n) (Z.of_nat n)
  else IndexOutOfBounds (Z.of_nat m) (Z.of_nat m).

Lemma cube_short_cases n m :
  (n < 24 \/ m < 36)%nat ->
  exists k, (k < 6 /\ ((4 * k <= n < 4 * k + 4 /\ 6 * k <= m) \/
                       (6 * k <= m < 6 * k + 6 /\ 4 * k + 4 <= n)))%nat.
Proof.
  intros Hs. exists (Nat.min (n / 4) (m / 6)).
  pose proof (Nat.div_mod_eq n 4). pose proof (Nat.div_mod_eq m 6).
  pose proof (Nat.mod_upper_bound n 4 ltac:(lia)).
  pose proof (Nat.mod_upper_bound m 6 ltac:(lia)). lia.
Qed.

Lemma cube_fault_vertex n m k :
  (4 * k <= n < 4 * k + 4)%nat -> (6 * k <= m)%nat ->
  cube_fault n m = IndexOutOfBounds (Z.of_nat n) (Z.of_nat n).
Proof.
  intros ? ?. unfold cube_fault.
  replace (n / 4)%nat with k by (apply Nat.div_unique with (n - 4 * k); lia).
  rewrite (proj2 (Nat.leb_le k (m / 6))); [done |].
  apply Nat.div_le_lower_bound; lia.
Qed.

Lemma cube_fault_triangle n m k :
  (6 * k <= m < 6 * k + 6)%nat -> (4 * k + 4 <= n)%nat ->
  cube_fault n m = IndexOutOfBounds (Z.of_nat m) (Z.of_nat m).
Proof.
  intros ? ?. unfold cube_fault.
  replace (m / 6)%nat with k by (apply Nat.div_unique with (m - 6 * k); lia).
  rewrite (proj2 (Nat.leb_gt (n / 4) k)); [done |].
  apply Nat.div_le_lower_bound; lia.
Qed.

Section CubeSpec.
Context {R : Type} `{FloatOps R}.

Lemma GenerateCube_correct (InSize OffsetPos : FVector R) V T :
  (24 <= length V)%nat -> (36 <= length T)%nat ->
  GenerateCube InSize OffsetPos (mkBuffers V T) =
  inr (tt, mkBuffers (write_attrs 0 (box_attrs InSize OffsetPos) V)
                     (list_inserts 0 box_indices T)).
Proof.
intros HV HT. unfold GenerateCube. cbv beta zeta.
do 6 (mstep BuildQuad_correct; cbv beta iota).
unfold mret. cbn [InVertices InTriangles].
repeat rewrite write_attrs_compose by (autorewrite with mesh_len; simpl; lia).
repeat rewrite list_inserts_compose by (simpl; lia).
reflexivity.
Qed.

(** C2. Refinement: on buffers of at least 24 vertices and 36 indices,
    [GenerateCube] succeeds and its effect is to write [box_attrs] into
    the first 24 vertices (keeping their colours) and [box_indices]
    into the first 36 indices. *)
Theorem GenerateCube_spec (InSize OffsetPos : FVector R) V T :
  (24 <= length V)%nat -> (36 <= length T)%nat ->
  GenerateCube InSize OffsetPos (mkBuffers V T) =
  inr (tt, mkBuffers (write_attrs 0 (box_attrs InSize OffsetPos) V)
                     (list_inserts 0 box_indices T)).
Proof. apply GenerateCube_correct. Qed.

(** Run the six faces: each [BuildQuad] either completes or faults. *)
Ltac run_faces :=
  repeat (first [ mstep BuildQuad_correct | mstep BuildQuad_vertex_fault
                | mstep BuildQuad_triangle_fault ]; cbv beta iota).

Lemma GenerateCube_fault_at (InSize OffsetPos : FVector R) V T :
  (length V < 24 \/ length T < 36)%nat ->
  GenerateCube InSize OffsetPos (mkBuffers V T) = inl (cube_fault (length V) (length T)).
Proof.
  intros Hshort. unfold GenerateCube. cbv beta zeta.
  destruct (cube_short_cases (length V) (length T) Hshort)
    as (k & Hk & [[? ?] | [? ?]]);
    [rewrite (cube_fault_vertex _ _ k) | rewrite (cube_fault_triangle _ _ k)]; try lia;
    do 6 (destruct k as [|k]; [run_faces; autorewrite with mesh_len; congr_lia |]); lia.
Qed.

(** C17. On buffers that are too short, [GenerateCube] stops at the first
    out-of-range write: [cube_fault]. *)
Theorem GenerateCube_fault (InSize OffsetPos : FVector R) V T :
  (length V < 24 \/ length T < 36)%nat ->
  GenerateCube InSize OffsetPos (mkBuffers V T) = inl (cube_fault (length V) (length T)).
Proof. apply GenerateCube_fault_at. Qed.

Lemma GenerateCube_ok_lengths (InSize OffsetPos : FVector R) V T :
  (exists b', GenerateCube InSize OffsetPos (mkBuffers V T) = inr (tt, b')) <->
  (24 <= length V /\ 36 <= length T)%nat.
Proof.
  split.
  - intros [b' Hb]. destruct (decide (24 <= length V /\ 36 <= length T)%nat) as [? | Hn];
      [done |].
    rewrite GenerateCube_fault_at in Hb by lia. discriminate.
  - intros [HV HT]. eexists. by apply GenerateCube_correct.
Qed.

(** C18. [GenerateCube] completes exactly on buffers of at least 24 vertices
    and 36 indices. *)
Theorem GenerateCube_ok_iff (InSize OffsetPos : FVector R) V T :
  (exists b', GenerateCube InSize OffsetPos (mkBuffers V T) = inr (tt, b')) <->
  (24 <= length V /\ 36 <= length T)%nat.
Proof. apply GenerateCube_ok_lengths. Qed.

Lemma length_box_attrs InSize OffsetPos : length (box_attrs InSize OffsetPos) = 24%nat.
Proof. reflexivity. Qed.

Lemma length_box_indices : length box_indices = 36%nat.
Proof. reflexivity. Qed.

Lemma box_attrs_lookup InSize OffsetPos i :
  (i < 24)%nat -> box_attrs InSize OffsetPos !! i = Some (vertex_attrs InSize OffsetPos i).
Proof. intros Hi. do 24 (destruct i as [|i]; [reflexivity |]). lia. Qed.

Lemma lookup_take_attrs n (l : list (FRuntimeMeshVertexSimple R)) A i :
  map attrs_of (take n l) = A -> (i < n)%nat -> (i < length l)%nat ->
  exists v, l !! i = Some v /\ A !! i = Some (attrs_of v).
Proof.
  intros <- Hn Hl. destruct (lookup_lt_is_Some_2 l i Hl) as [v Hv].
  exists v. split; [done |]. by rewrite list_lookup_fmap, lookup_take_lt, Hv.
Qed.

(** What a successful call leaves in the buffers, from [GenerateCube_correct]. *)
Lemma GenerateCube_result (InSize OffsetPos : FVector R) V T b' :
  GenerateCube InSize OffsetPos (mkBuffers V T) = inr (tt, b') ->
  (24 <= length V /\ 36 <= length T)%nat /\
  b' = mkBuffers (write_attrs 0 (box_attrs InSize OffsetPos) V) (list_inserts 0 box_indices T).
Proof.
  intros Hb. assert (Hl := proj1 (GenerateCube_ok_lengths InSize OffsetPos V T) (ex_intro _ _ Hb)).
  rewrite GenerateCube_correct in Hb by lia. apply inr_snd_inj in Hb. done.
Qed.

Lemma GenerateCube_written (InSize OffsetPos : FVector R) V T b' :
  GenerateCube InSize OffsetPos (mkBuffers V T) = inr (tt, b') ->
  map attrs_of (take 24 (InVertices b')) = box_attrs InSize OffsetPos /\
  take 36 (InTriangles b') = box_indices.
Proof.
  intros [[HV HT] ->]%GenerateCube_result. cbn [InVertices InTriangles].
  destruct (write_attrs_0_split (box_attrs InSize OffsetPos) V) as [A _];
    [by rewrite length_box_attrs |].
  destruct (list_inserts_0_split box_indices T) as [B _]; [by rewrite length_box_indices |].
  by rewrite length_box_attrs in A; rewrite length_box_indices in B.
Qed.

(** A successful call determines the first 24 vertices' attributes and
    the first 36 indices whatever the buffers held before. *)
Theorem GenerateCube_output (InSize OffsetPos : FVector R) V T b' :
  GenerateCube InSize OffsetPos (mkBuffers V T) = inr (tt, b') ->
  map attrs_of (take 24 (InVertices b')) = box_attrs InSize OffsetPos /\
  take 36 (InTriangles b') = box_indices.
Proof. apply GenerateCube_written. Qed.

Lemma GenerateCube_vertex_at (InSize OffsetPos : FVector R) V T b' i :
  GenerateCube InSize OffsetPos (mkBuffers V T) = inr (tt, b') -> (i < 24)%nat ->
  exists v, InVertices b' !! i = Some v /\
    Position v = corner InSize OffsetPos (face_corner (face_of_vertex i) (i mod 4)) /\
    UV0 v = quad_uv (i mod 4) /\
    Normal v = PackNormal (vec_of (face_normal (face_of_vertex i))) /\
    Tangent v = PackNormal (vec_of (face_tangent (face_of_vertex i))).
Proof.
  intros Hb Hi. destruct (GenerateCube_written _ _ _ _ _ Hb) as [HA _].
  destruct (GenerateCube_result _ _ _ _ _ Hb) as [[HV _] ->].
  destruct (lookup_take_attrs _ _ _ i HA Hi) as (v & Hv & Ha);
    [rewrite InVertices_mkBuffers, length_write_attrs; lia |].
  rewrite box_attrs_lookup in Ha by done. injection Ha as Hp Huv Hn Ht.
  exists v. split_and!; [exact Hv | symmetry; exact Hp | symmetry; exact Huv
                       | symmetry; exact Hn | symmetry; exact Ht].
Qed.

(** C20. Every vertex [i < 24] written by a successful call: its position is
    the corner the face table gives, its UV the fixed unit-square UV of
    its place in the quad, whatever the box's size, and its normal and
    tangent those of its face [i / 4]. *)
Theorem GenerateCube_vertex (InSize OffsetPos : FVector R) V T b' i :
  GenerateCube InSize OffsetPos (mkBuffers V T) = inr (tt, b') -> (i < 24)%nat ->
  exists v, InVertices b' !! i = Some v /\
    Position v = corner InSize OffsetPos (face_corner (face_of_vertex i) (i mod 4)) /\
    UV0 v = quad_uv (i mod 4) /\
    Normal v = PackNormal (vec_of (face_normal (face_of_vertex i))) /\
    Tangent v = PackNormal (vec_of (face_tangent (face_of_vertex i))).
Proof. apply GenerateCube_vertex_at. Qed.

Lemma box_indices_local t z :
  box_indices !! t = Some z -> (4 * Z.of_nat (t / 6) <= z < 4 * Z.of_nat (t / 6) + 4)%Z.
Proof.
  intros Ht. assert (t < 36)%nat by (apply lookup_lt_Some in Ht; done).
  do 36 (destruct t as [|t]; [simpl in Ht; injection Ht as <-; simpl; lia |]). lia.
Qed.

Lemma box_indices_covers v :
  (v < 24)%nat -> Z.of_nat v ∈ box_indices.
Proof.
  intros Hv. do 24 (destruct v as [|v]; [apply list_elem_of_In; simpl; repeat (first [left; reflexivity | right]) |]). lia.
Qed.

(** C21. Flat shading: after a successful call, the six indices [6k .. 6k+5]
    written for face [k] name only that face's own vertices
    [4k .. 4k+3], so no vertex is shared between faces. *)
Theorem GenerateCube_face_local (InSize OffsetPos : FVector R) V T b' t z :
  GenerateCube InSize OffsetPos (mkBuffers V T) = inr (tt, b') -> (t < 36)%nat ->
  InTriangles b' !! t = Some z -> (4 * Z.of_nat (t / 6) <= z < 4 * Z.of_nat (t / 6) + 4)%Z.
Proof.
  intros Hb Ht Hz. destruct (GenerateCube_written _ _ _ _ _ Hb) as [_ HT].
  apply box_indices_local. by rewrite <- HT, lookup_take_lt.
Qed.

(** C36. After a successful call every one of the 24 vertices written is
    used by one of the 36 indices written. *)
Theorem GenerateCube_indices_cover (InSize OffsetPos : FVector R) V T b' v :
  GenerateCube InSize OffsetPos (mkBuffers V T) = inr (tt, b') -> (v < 24)%nat ->
  Z.of_nat v ∈ take 36 (InTriangles b').
Proof.
  intros Hb Hv. destruct (GenerateCube_written _ _ _ _ _ Hb) as [_ ->].
  by apply box_indices_covers.
Qed.

(** C30. Frame: lengths, every vertex colour and the cells past the box are
    left as they were. *)
Theorem GenerateCube_frame (InSize OffsetPos : FVector R) V T b' :
  GenerateCube InSize OffsetPos (mkBuffers V T) = inr (tt, b') ->
  length (InVertices b') = length V /\ length (InTriangles b') = length T /\
  map Color (InVertices b') = map Color V /\
  drop 24 (InVertices b') = drop 24 V /\ drop 36 (InTriangles b') = drop 36 T.
Proof.
  intros [[HV HT] ->]%GenerateCube_result. cbn [InVertices InTriangles].
  destruct (write_attrs_0_split (box_attrs InSize OffsetPos) V) as [_ A];
    [by rewrite length_box_attrs |].
  destruct (list_inserts_0_split box_indices T) as [_ B]; [by rewrite length_box_indices |].
  rewrite length_box_attrs in A; rewrite length_box_indices in B.
  by rewrite length_write_attrs, length_inserts, map_Color_write_attrs.
Qed.

End CubeSpec.

(** ** Witnesses at concrete inputs *)

Definition table_size : FVector Q := mkFVector 100%Q 100%Q 50%Q.
Definition buf_vertices (n : nat) : list (FRuntimeMeshVertexSimple Q) := repeat zero_vertex n.
Definition buf_indices (n : nat) : list Z := repeat 0%Z n.

(** The table's 100 x 100 x 50 box, generated into fresh buffers. *)
Lemma table_cube_run :
  GenerateCube table_size zero_vector (mkBuffers (buf_vertices 24) (buf_indices 36)) =
  inr (tt, mkBuffers (write_attrs 0 (box_attrs table_size zero_vector) (buf_vertices 24))
                     (list_inserts 0 box_indices (buf_indices 36))).
Proof. apply GenerateCube_correct; reflexivity. Qed.

Lemma GenerateCube_spec_witness :
  GenerateCube table_size zero_vector (mkBuffers (buf_vertices 24) (buf_indices 36)) =
  inr (tt, mkBuffers (write_attrs 0 (box_attrs table_size zero_vector) (buf_vertices 24))
                     (list_inserts 0 box_indices (buf_indices 36))).
Proof. apply GenerateCube_spec; reflexivity. Defined.

Lemma GenerateCube_fault_witness :
  GenerateCube table_size zero_vector (mkBuffers (buf_vertices 10) (buf_indices 36)) =
  inl (IndexOutOfBounds 10 10).
Proof. apply (GenerateCube_fault table_size zero_vector (buf_vertices 10) (buf_indices 36)).
  simpl; lia. Defined.

Lemma GenerateCube_ok_iff_witness :
  (exists b', GenerateCube table_size zero_vector
                (mkBuffers (buf_vertices 24) (buf_indices 35)) = inr (tt, b')) <-> False.
Proof.
  rewrite GenerateCube_ok_iff. simpl. lia.
Defined.

Lemma GenerateCube_vertex_witness :
  exists v, InVertices (mkBuffers (write_attrs 0 (box_attrs table_size zero_vector) (buf_vertices 24))
                                  (list_inserts 0 box_indices (buf_indices 36))) !! 5%nat = Some v /\
    Position v = corner table_size zero_vector (face_corner Back 1) /\
    UV0 v = quad_uv 1 /\ Normal v = PackNormal (vec_of (face_normal Back)) /\
    Tangent v = PackNormal (vec_of (face_tangent Back)).
Proof. apply (GenerateCube_vertex table_size zero_vector (buf_vertices 24) (buf_indices 36));
  [apply table_cube_run | lia]. Defined.

Lemma GenerateCube_output_witness :
  map attrs_of (take 24 (write_attrs 0 (box_attrs table_size zero_vector) (buf_vertices 24))) =
  box_attrs table_size zero_vector /\
  take 36 (list_inserts 0 box_indices (buf_indices 36)) = box_indices.
Proof. apply (GenerateCube_output table_size zero_vector (buf_vertices 24) (buf_indices 36)
  _ table_cube_run). Defined.

Lemma GenerateCube_frame_witness :
  map Color (write_attrs 0 (box_attrs table_size zero_vector) (buf_vertices 24)) =
  map Color (buf_vertices 24).
Proof. apply (GenerateCube_frame table_size zero_vector (buf_vertices 24) (buf_indices 36)
  _ table_cube_run). Defined.

Lemma GenerateCube_face_local_witness :
  InTriangles (mkBuffers (write_attrs 0 (box_attrs table_size zero_vector) (buf_vertices 24))
                         (list_inserts 0 box_indices (buf_indices 36))) !! 13%nat = Some 9%Z /\
  (4 * Z.of_nat (13 / 6) <= 9 < 4 * Z.of_nat (13 / 6) + 4)%Z.
Proof.
  split; [vm_compute; reflexivity |].
  apply (GenerateCube_face_local table_size zero_vector (buf_vertices 24) (buf_indices 36)
           _ 13 9 table_cube_run); [lia | vm_compute; reflexivity].
Defined.

Lemma GenerateCube_indices_cover_witness :
  Z.of_nat 17 ∈ take 36 (list_inserts 0 box_indices (buf_indices 36)).
Proof.
  apply (GenerateCube_indices_cover table_size zero_vector (buf_vertices 24) (buf_indices 36)
           (mkBuffers (write_attrs 0 (box_attrs table_size zero_vector) (buf_vertices 24))
                      (list_inserts 0 box_indices (buf_indices 36))) 17 table_cube_run).
  lia.
Defined.
