(* ===== verification/Readback.v ===== *)
(** * Reading a quad and a box back from the buffers

    A reader for what [BuildQuad] and [GenerateCube] write: [read_quad]
    decodes the four vertices and six indices of one quad into the
    arguments of the [BuildQuad] call ([QuadArgs]), and fails unless the
    window has the shape [BuildQuad] gives it (the fixed UVs, one
    normal and tangent shared by the four vertices, the triangles 0-1-2
    and 0-2-3 over them).  [read_box] reads the six quads of a box.

    The round trips: decoding what [BuildQuad] wrote gives back its
    arguments; decoding what [GenerateCube] wrote gives back the face
    table; and anything the reader accepts is exactly the encoding of
    what it returns.  The reader compares scalars, so this file assumes
    decidable equality of [R]. *)

From S2P Require Import Prelude Vector Quad Cube.
From Stdlib Require Import QArith_base.
Close Scope Q_scope.

Section Readback.
Context {R : Type} `{FloatOps R} `{EqDecision R}.
Abbreviation Vertex := (FRuntimeMeshVertexSimple R).

(** The arguments of one [BuildQuad] call that reach the buffers. *)
Record QuadArgs : Type := mkQuadArgs {
  qBottomLeft : FVector R;
  qBottomRight : FVector R;
  qTopRight : FVector R;
  qTopLeft : FVector R;
  qNormal : FPackedNormal R;
  qTangent : FPackedNormal R
}.

(** The quad whose four vertices start at [vo] and whose six indices
    start at [to], if the buffers hold one there. *)
Definition read_quad (A : list (VertexAttrs R)) (T : list Z) (vo to : nat) : option QuadArgs :=
  match take 4 (drop vo A) with
  | [a1; a2; a3; a4] =>
      if decide (map a_UV0 [a1; a2; a3; a4] = [UV 0 1; UV 1 1; UV 1 0; UV 0 0] /\
                 Forall (fun a => a_Normal a = a_Normal a1 /\ a_Tangent a = a_Tangent a1)
                   [a2; a3; a4] /\
                 take 6 (drop to T) = quad_indices (Z.of_nat vo))
      then Some (mkQuadArgs (a_Position a1) (a_Position a2) (a_Position a3) (a_Position a4)
                            (a_Normal a1) (a_Tangent a1))
      else None
  | _ => None
  end.

(** The quads [k .. k+n-1] of a box, quad [j] at vertex [4j] and
    index [6j]. *)
Fixpoint read_quads (A : list (VertexAttrs R)) (T : list Z) (k n : nat) : option (list QuadArgs) :=
  match n with
  | O => Some []
  | S n' =>
      q ← read_quad A T (4 * k) (6 * k);
      qs ← read_quads A T (S k) n';
      Some (q :: qs)
  end.

Definition read_box (A : list (VertexAttrs R)) (T : list Z) : option (list QuadArgs) :=
  read_quads A T 0 6.

(** The arguments [GenerateCube] passes for face [f]. *)
Definition face_args (InSize OffsetPos : FVector R) (f : Face) : QuadArgs :=
  let '(a, b, c, d) := face_corners f in
  let p := corner InSize OffsetPos in
  mkQuadArgs (p a) (p b) (p c) (p d)
    (PackNormal (vec_of (face_normal f))) (PackNormal (vec_of (face_tangent f))).

(** ** Windows of the buffers *)

Lemma window_take {A} (l : list A) j m n :
  (j + m <= n)%nat -> take m (drop j (take n l)) = take m (drop j l).
Proof.
  intros Hn. rewrite !take_drop_commute, take_take.
  by replace ((j + m) `min` n)%nat with (j + m)%nat by lia.
Qed.

Lemma window_write_attrs i attrs (l : list Vertex) :
  (i + length attrs <= length l)%nat ->
  take (length attrs) (drop i (map attrs_of (write_attrs i attrs l))) = attrs.
Proof.
  intros Hl. destruct (split_at l i) as (pre & r & -> & Hpre); [lia |].
  rewrite <- Hpre, write_attrs_app, map_app, drop_app_length'
    by (by rewrite length_map).
  rewrite firstn_map. apply write_attrs_0_split. rewrite length_app in Hl. lia.
Qed.

Lemma window_list_inserts {A} i (k l : list A) :
  (i + length k <= length l)%nat -> take (length k) (drop i (list_inserts i k l)) = k.
Proof.
  intros Hl. destruct (split_at l i) as (pre & r & -> & Hpre); [lia |].
  rewrite <- Hpre, list_inserts_app_length, drop_app_length.
  apply list_inserts_0_split. rewrite length_app in Hl. lia.
Qed.

(** The reader looks at its two windows only. *)
Lemma read_quad_window A A' T T' vo to :
  take 4 (drop vo A) = take 4 (drop vo A') -> take 6 (drop to T) = take 6 (drop to T') ->
  read_quad A T vo to = read_quad A' T' vo to.
Proof. unfold read_quad. intros -> ->. reflexivity. Qed.

(** Decoding the encoding of one quad. *)
Lemma read_quad_encoding A T vo to BL BR TR TL N Tg :
  take 4 (drop vo A) = quad_attrs BL BR TR TL N Tg ->
  take 6 (drop to T) = quad_indices (Z.of_nat vo) ->
  read_quad A T vo to = Some (mkQuadArgs BL BR TR TL N Tg).
Proof.
  intros HA HT. unfold read_quad. rewrite HA. cbn [quad_attrs].
  rewrite decide_True; [reflexivity |].
  split_and!; [reflexivity | repeat constructor | exact HT].
Qed.

(** The encoding of one [BuildQuad] call's arguments. *)
Definition quad_attrs_of (q : QuadArgs) : list (VertexAttrs R) :=
  quad_attrs (qBottomLeft q) (qBottomRight q) (qTopRight q) (qTopLeft q) (qNormal q) (qTangent q).

Lemma face_attrs_args InSize OffsetPos f :
  face_attrs InSize OffsetPos f = quad_attrs_of (face_args InSize OffsetPos f).
Proof. by destruct f. Qed.

(** Whatever the reader accepts is the encoding of what it returns. *)
Lemma read_quad_sound A T vo to q :
  read_quad A T vo to = Some q ->
  take 4 (drop vo A) = quad_attrs_of q /\ take 6 (drop to T) = quad_indices (Z.of_nat vo).
Proof.
  unfold read_quad.
  destruct (take 4 (drop vo A)) as [|a1 [|a2 [|a3 [|a4 [|? ?]]]]]; try discriminate.
  case_decide as Hd; [| discriminate]. intros [= <-].
  destruct Hd as (Huv & Hf & Ht). rewrite !Forall_cons_iff in Hf. destruct_and! Hf.
  split; [| exact Ht]. injection Huv as Hu1 Hu2 Hu3 Hu4.
  unfold quad_attrs_of, quad_attrs. cbn [qBottomLeft qBottomRight qTopRight qTopLeft qNormal qTangent].
  destruct a1, a2, a3, a4; cbn in *; subst. reflexivity.
Qed.

Lemma read_quads_sound A T k n qs :
  read_quads A T k n = Some qs ->
  take (4 * n) (drop (4 * k) A) = flat_map quad_attrs_of qs /\
  take (6 * n) (drop (6 * k) T) = flat_map (fun j => quad_indices (Z.of_nat (4 * j))) (seq k n).
Proof.
  revert k qs. induction n as [|n IH]; intros k qs Hr; cbn [read_quads] in Hr.
  - injection Hr as <-. by rewrite !take_0.
  - destruct (read_quad A T (4 * k) (6 * k)) as [q|] eqn:Eq; simpl in Hr; [| discriminate].
    destruct (read_quads A T (S k) n) as [qs'|] eqn:Eqs; simpl in Hr; [| discriminate].
    injection Hr as <-.
    destruct (read_quad_sound _ _ _ _ _ Eq) as [HA HT].
    destruct (IH _ _ Eqs) as [HA' HT'].
    replace (4 * S n)%nat with (4 + 4 * n)%nat by lia.
    replace (6 * S n)%nat with (6 + 6 * n)%nat by lia.
    rewrite <- !take_take_drop, !drop_drop, HA, HT.
    replace (4 * k + 4)%nat with (4 * S k)%nat by lia.
    replace (6 * k + 6)%nat with (6 * S k)%nat by lia.
    by rewrite HA', HT'.
Qed.

(** Vertices whose attributes are already [l]'s keep everything. *)
Lemma write_attrs_0_self n (l : list Vertex) :
  (n <= length l)%nat -> write_attrs 0 (map attrs_of (take n l)) l = l.
Proof.
  intros Hn. destruct (split_at l n) as (m & r & -> & Hm); [lia |].
  rewrite take_app_length' by done.
  rewrite write_attrs_0_app by (by rewrite length_map). f_equal.
  clear. induction m as [|v m IH]; [done |]. simpl. rewrite IH. by destruct v.
Qed.

Lemma list_inserts_0_self {A} n (l : list A) :
  (n <= length l)%nat -> list_inserts 0 (take n l) l = l.
Proof.
  intros Hn. destruct (split_at l n) as (m & r & -> & Hm); [lia |].
  rewrite take_app_length' by done. by apply list_inserts_0_r.
Qed.

Lemma read_quads_take A T k n :
  read_quads (take (4 * (k + n)) A) (take (6 * (k + n)) T) k n = read_quads A T k n.
Proof.
  revert k. induction n as [|n IH]; intros k; [done |]. cbn [read_quads].
  rewrite (read_quad_window _ A _ T) by (apply window_take; lia).
  replace (k + S n)%nat with (S k + n)%nat by lia. by rewrite IH.
Qed.

Lemma read_box_box InSize OffsetPos :
  read_box (box_attrs InSize OffsetPos) box_indices = Some (map (face_args InSize OffsetPos) faces).
Proof.
  unfold read_box. cbn [read_quads].
  do 6 (erewrite read_quad_encoding by reflexivity; cbn [mbind option_bind]).
  reflexivity.
Qed.

(** ** The round trips *)

(** C11. Reading back one quad: with the offsets in range, the window
    [BuildQuad] has just written decodes to the arguments it was
    called with. *)
Theorem BuildQuad_roundtrip BL BR TR TL vo to N Tg (b b' : MeshBuffers R) o :
  (0 <= vo)%Z -> (vo + 4 <= Z.of_nat (length (InVertices b)))%Z -> (vo + 4 <= MAX_int32)%Z ->
  (0 <= to)%Z -> (to + 6 <= Z.of_nat (length (InTriangles b)))%Z -> (to + 6 <= MAX_int32)%Z ->
  BuildQuad BL BR TR TL vo to N Tg b = inr (o, b') ->
  read_quad (map attrs_of (InVertices b')) (InTriangles b') (Z.to_nat vo) (Z.to_nat to) =
  Some (mkQuadArgs BL BR TR TL N Tg).
Proof.
  intros ? ? ? ? ? ? Hb. rewrite BuildQuad_correct in Hb by done.
  apply inr_snd_inj in Hb. subst b'. cbn [InVertices InTriangles].
  apply read_quad_encoding.
  - apply (window_write_attrs _ (quad_attrs BL BR TR TL N Tg)). simpl. lia.
  - rewrite Z2Nat.id by done. apply (window_list_inserts _ (quad_indices vo)). simpl. lia.
Qed.

(** C10. Reading back a box: the buffers a successful [GenerateCube] leaves
    decode to its face table, the corners, normal and tangent of each
    of the six faces in call order. *)
Theorem GenerateCube_roundtrip (InSize OffsetPos : FVector R) V T b' :
  GenerateCube InSize OffsetPos (mkBuffers V T) = inr (tt, b') ->
  read_box (map attrs_of (InVertices b')) (InTriangles b') =
  Some (map (face_args InSize OffsetPos) faces).
Proof.
  intros ([HV HT] & ->)%GenerateCube_result. cbn [InVertices InTriangles].
  unfold read_box. rewrite <- read_quads_take. cbn [Nat.add Nat.mul].
  rewrite firstn_map.
  destruct (write_attrs_0_split (box_attrs InSize OffsetPos) V) as [HA _]; [by rewrite length_box_attrs |].
  destruct (list_inserts_0_split box_indices T) as [HI _]; [by rewrite length_box_indices |].
  rewrite length_box_attrs in HA. rewrite length_box_indices in HI.
  rewrite HA, HI. apply read_box_box.
Qed.

(** C28. The other direction, on the code: buffers that already decode to
    a box's face table are left as they are by [GenerateCube] for that
    box, so the reader accepts exactly what [GenerateCube] writes. *)
Theorem GenerateCube_fixes_decoded (InSize OffsetPos : FVector R) V T :
  read_box (map attrs_of V) T = Some (map (face_args InSize OffsetPos) faces) ->
  GenerateCube InSize OffsetPos (mkBuffers V T) = inr (tt, mkBuffers V T).
Proof.
  intros Hr. destruct (read_quads_sound _ _ 0 6 _ Hr) as [HA HT].
  change (drop (4 * 0) (map attrs_of V)) with (map attrs_of V) in HA.
  change (drop (6 * 0) T) with T in HT.
  change (flat_map quad_attrs_of (map (face_args InSize OffsetPos) faces))
    with (box_attrs InSize OffsetPos) in HA.
  change (flat_map (fun j => quad_indices (Z.of_nat (4 * j))) (seq 0 6)) with box_indices in HT.
  assert (HV : (24 <= length V)%nat).
  { pose proof (f_equal length HA) as E. rewrite length_take, length_map, length_box_attrs in E. lia. }
  assert (HT' : (36 <= length T)%nat).
  { pose proof (f_equal length HT) as E. rewrite length_take, length_box_indices in E. lia. }
  rewrite GenerateCube_correct by done.
  rewrite firstn_map in HA. rewrite <- HA, <- HT, write_attrs_0_self, list_inserts_0_self by done.
  reflexivity.
Qed.

End Readback.

(** ** Witnesses at concrete inputs *)

(** The arguments of the first [BuildQuad] call for the 100 x 100 x 50
    box at the origin: its +X face. *)
Definition front_args : QuadArgs (R := Q) := face_args table_size zero_vector Front.

Lemma BuildQuad_roundtrip_witness :
  read_quad (map attrs_of (write_attrs 0 (quad_attrs_of front_args) (buf_vertices 4)))
            (list_inserts 0 (quad_indices 0) (buf_indices 6)) 0 0 = Some front_args.
Proof.
  apply (BuildQuad_roundtrip (qBottomLeft front_args) (qBottomRight front_args)
           (qTopRight front_args) (qTopLeft front_args) 0 0 (qNormal front_args)
           (qTangent front_args) (mkBuffers (buf_vertices 4) (buf_indices 6))
           (mkBuffers (write_attrs 0 (quad_attrs_of front_args) (buf_vertices 4))
                      (list_inserts 0 (quad_indices 0) (buf_indices 6))) (4, 6)%Z);
    try (simpl; unfold MAX_int32; lia).
  vm_compute. reflexivity.
Defined.

Lemma GenerateCube_roundtrip_witness :
  read_box (map attrs_of (write_attrs 0 (box_attrs table_size zero_vector) (buf_vertices 24)))
           (list_inserts 0 box_indices (buf_indices 36)) =
  Some (map (face_args table_size zero_vector) faces).
Proof.
  apply (GenerateCube_roundtrip table_size zero_vector (buf_vertices 24) (buf_indices 36)
           (mkBuffers (write_attrs 0 (box_attrs table_size zero_vector) (buf_vertices 24))
                      (list_inserts 0 box_indices (buf_indices 36)))).
  exact table_cube_run.
Defined.

Lemma GenerateCube_fixes_decoded_witness :
  GenerateCube table_size zero_vector
    (mkBuffers (write_attrs 0 (box_attrs table_size zero_vector) (buf_vertices 24))
               (list_inserts 0 box_indices (buf_indices 36))) =
  inr (tt, mkBuffers (write_attrs 0 (box_attrs table_size zero_vector) (buf_vertices 24))
                     (list_inserts 0 box_indices (buf_indices 36))).
Proof.
  apply GenerateCube_fixes_decoded. vm_compute. reflexivity.
Defined.
