(* ===== verification/RuntimeMesh.v ===== *)
(** * The runtime mesh component, as the actor uses it

    [URuntimeMeshComponent] is a plugin the actor calls, not code of this
    repository.  The actor relies on four of its operations:
    [ClearAllMeshSections], [CreateMeshSection] (which copies the two
    arrays it is given), [SetMaterial], and the sections and materials it
    then renders.  [RuntimeMeshComponent] states them as a class of
    operations, [RuntimeMeshLaws] the laws the actor's theorems use, and
    [RMCState] is an implementation over stdpp's [gmap] that discharges
    the laws. *)

From S2P Require Import Prelude Vector Quad.
From stdpp Require Import gmap.

(** [EUpdateFrequency] *)
Inductive EUpdateFrequency : Type := Frequent | Average | Infrequent.

(** What [CreateMeshSection(SectionIndex, Vertices, Triangles,
    BoundingBox, bCreateCollision, UpdateFrequency)] stores: copies of
    the arrays and the other arguments. *)
Record MeshSection (R : Type) : Type := mkSection {
  SecVertices : list (FRuntimeMeshVertexSimple R);
  SecTriangles : list Z;
  SecBounds : FBox R;
  SecCollision : bool;
  SecFrequency : EUpdateFrequency
}.

Arguments mkSection {R}.
Arguments SecVertices {R}.
Arguments SecTriangles {R}.
Arguments SecBounds {R}.
Arguments SecCollision {R}.
Arguments SecFrequency {R}.

(** The operations of the component the actor calls, over its state [C];
    [Mat] is the material handle ([UMaterialInterface*]), which the
    component stores and never inspects. *)
Class RuntimeMeshComponent (R Mat C : Type) := {
  ClearAllMeshSections : C -> C;
  CreateMeshSection : Z -> MeshSection R -> C -> C;
  SetMaterial : Z -> Mat -> C -> C;
  GetSection : C -> Z -> option (MeshSection R);
  GetMaterial : C -> Z -> option Mat
}.

(** What the actor relies on.  Clearing removes every section and keeps
    the material slots (they belong to the mesh component base class);
    creating a section replaces the one at that index only; setting a
    material touches that slot only. *)
Class RuntimeMeshLaws (R Mat C : Type) `{RuntimeMeshComponent R Mat C} := {
  GetSection_Clear c i : GetSection (ClearAllMeshSections c) i = None;
  GetSection_Create_eq c i s : GetSection (CreateMeshSection i s c) i = Some s;
  GetSection_Create_ne c i j s : i <> j -> GetSection (CreateMeshSection i s c) j = GetSection c j;
  GetSection_SetMaterial c i j m : GetSection (SetMaterial i m c) j = GetSection c j;
  GetMaterial_Clear c i : GetMaterial (ClearAllMeshSections c) i = GetMaterial c i;
  GetMaterial_Create c i j s : GetMaterial (CreateMeshSection i s c) j = GetMaterial c j;
  GetMaterial_Set_eq c i m : GetMaterial (SetMaterial i m c) i = Some m;
  GetMaterial_Set_ne c i j m : i <> j -> GetMaterial (SetMaterial i m c) j = GetMaterial c j
}.

#[export] Hint Rewrite @GetSection_Clear @GetSection_Create_eq @GetSection_SetMaterial
  @GetMaterial_Clear @GetMaterial_Create @GetMaterial_Set_eq : mesh_len.

(** ** An implementation: sections and material slots as finite maps *)

Record RMCState (R Mat : Type) : Type := mkRMC {
  Sections : gmap Z (MeshSection R);
  Materials : gmap Z Mat
}.

Arguments mkRMC {R Mat}.
Arguments Sections {R Mat}.
Arguments Materials {R Mat}.

#[export] Instance RMC_gmap (R Mat : Type) : RuntimeMeshComponent R Mat (RMCState R Mat) := {|
  ClearAllMeshSections c := mkRMC ∅ (Materials c);
  CreateMeshSection i s c := mkRMC (<[i := s]> (Sections c)) (Materials c);
  SetMaterial i m c := mkRMC (Sections c) (<[i := m]> (Materials c));
  GetSection c i := Sections c !! i;
  GetMaterial c i := Materials c !! i
|}.

#[export] Instance RMC_gmap_laws (R Mat : Type) : RuntimeMeshLaws R Mat (RMCState R Mat).
Proof.
  split; intros; simpl;
    rewrite ?lookup_empty, ?lookup_insert_eq, ?lookup_insert_ne; done.
Qed.

(** The empty component, as [CreateDefaultSubobject] makes it. *)
Definition RMC_empty {R Mat : Type} : RMCState R Mat := mkRMC ∅ ∅.
