(* ===== verification/Table.v ===== *)
(** * [ATableActor]: its state, [SetupMeshBuffers] and [GenerateMesh]

    The actor's members are the record [ATableActor]: the editable
    parameters [Size], [LegSize] and [Material], the flag
    [bHaveBuffersBeenInitialized], the two buffers [Vertices] and
    [Triangles] shared by all five boxes, the members [offsetDiffX/Y/Z]
    the leg blocks write, and the mesh component.  [GenerateMesh] is the
    source's body statement by statement in the monad [M] over that
    state; the mesh component is used only through the interface
    [RuntimeMeshComponent] and its laws.  The life cycle that calls
    [GenerateMesh] is in [Lifecycle]. *)

From S2P Require Import Prelude Vector Quad Cube RuntimeMesh.
From Stdlib Require Import QArith_base.
From Stdlib Require String.
Close Scope Q_scope.

(** ** The scene components the constructor sets up *)

(** The names the constructor gives its default subobjects. *)
Module SubobjectNames.
Import String.StringSyntax.
Local Open Scope string_scope.
Definition Root : String.string := "Root".
Definition ProceduralMesh : String.string := "ProceduralMesh".
End SubobjectNames.

(** The scene-component side of the actor: [RootComponent] and the mesh
    component, each known by the name given to [CreateDefaultSubobject],
    the parent the mesh component is attached to, and the mesh
    component's [bShouldSerializeMeshData]. *)
Record SceneSetup : Type := mkScene {
  RootComponent : String.string;
  MeshComponentName : String.string;
  MeshAttachParent : option String.string;
  bShouldSerializeMeshData : bool
}.

(** [MeshComponent->bShouldSerializeMeshData = v] *)
Definition set_bShouldSerializeMeshData (v : bool) (s : SceneSetup) : SceneSetup :=
  mkScene (RootComponent s) (MeshComponentName s) (MeshAttachParent s) v.

(** [MeshComponent->SetupAttachment(Parent)]: the mesh component is
    attached to the scene component [Parent]. *)
Definition SetupAttachment (Parent : String.string) (s : SceneSetup) : SceneSetup :=
  mkScene (RootComponent s) (MeshComponentName s) (Some Parent) (bShouldSerializeMeshData s).

Section Table.
Context {R Mat C : Type} `{FloatOps R} `{RuntimeMeshComponent R Mat C}.
Abbreviation Vertex := (FRuntimeMeshVertexSimple R).

(** The members of [ATableActor] the code reads or writes. *)
Record ATableActor : Type := mkActor {
  Size : FVector R;
  LegSize : FVector R;
  Material : Mat;
  bHaveBuffersBeenInitialized : bool;
  Vertices : list Vertex;
  Triangles : list Z;
  offsetDiffX : R;
  offsetDiffY : R;
  offsetDiffZ : R;
  MeshComponent : C;
  Scene : SceneSetup
}.

Definition set_buffers (b : MeshBuffers R) (a : ATableActor) : ATableActor :=
  mkActor (Size a) (LegSize a) (Material a) (bHaveBuffersBeenInitialized a)
    (InVertices b) (InTriangles b) (offsetDiffX a) (offsetDiffY a) (offsetDiffZ a)
    (MeshComponent a) (Scene a).

Definition set_initialized (v : bool) (a : ATableActor) : ATableActor :=
  mkActor (Size a) (LegSize a) (Material a) v (Vertices a) (Triangles a)
    (offsetDiffX a) (offsetDiffY a) (offsetDiffZ a) (MeshComponent a)
    (Scene a).

Definition set_offsetDiff (x y z : R) (a : ATableActor) : ATableActor :=
  mkActor (Size a) (LegSize a) (Material a) (bHaveBuffersBeenInitialized a)
    (Vertices a) (Triangles a) x y z (MeshComponent a) (Scene a).

Definition set_mesh (c : C) (a : ATableActor) : ATableActor :=
  mkActor (Size a) (LegSize a) (Material a) (bHaveBuffersBeenInitialized a)
    (Vertices a) (Triangles a) (offsetDiffX a) (offsetDiffY a) (offsetDiffZ a) c
    (Scene a).

(** A call on the two member arrays, passed by reference. *)
Definition on_buffers {A} (m : M (MeshBuffers R) A) : M ATableActor A :=
  fun a => match m (mkBuffers (Vertices a) (Triangles a)) with
           | inl e => inl e
           | inr (x, b) => inr (x, set_buffers b a)
           end.

(** A call on [MeshComponent]. *)
Definition on_mesh (f : C -> C) : M ATableActor unit :=
  mmodify (fun a => set_mesh (f (MeshComponent a)) a).

(** [ATableActor::SetupMeshBuffers]: the uninitialised cells are given
    by [junkV] and [junkT]. *)
Definition SetupMeshBuffers (junkV : nat -> Vertex) (junkT : nat -> Z) : M ATableActor unit :=
  let VertexCount := (6 * 4)%nat in
  mmodify (fun a => set_buffers (mkBuffers (AddUninitialized junkV VertexCount (Vertices a))
                                           (AddUninitialized junkT (6 * 2 * 3) (Triangles a))) a).

(** [MeshComponent->CreateMeshSection(SectionIndex, Vertices, Triangles,
    BoundingBox, true, EUpdateFrequency::Infrequent)]: the section gets
    copies of the member arrays as they are now. *)
Definition CreateSectionFromBuffers (SectionIndex : Z) (BoundingBox : FBox R) : M ATableActor unit :=
  mmodify (fun a => set_mesh (CreateMeshSection SectionIndex
             (mkSection (Vertices a) (Triangles a) BoundingBox true Infrequent)
             (MeshComponent a)) a).

(** One leg block of [GenerateMesh] (lines 55-62, repeated at 64-71,
    73-80 and 82-89 with the signs of the X and Y offsets and the
    section index as the only differences). *)
Definition GenerateLeg (SectionIndex : Z) (negX negY : bool) (BoundingBox : FBox R)
    : M ATableActor unit :=
  a <- mget ;;
  let offsetDiffX := fsub (fdiv (vX (Size a)) (flit 2)) (flit (5 # 2)) in
  let offsetDiffY := fsub (fdiv (vY (Size a)) (flit 2)) (flit (5 # 2)) in
  let offsetDiffZ := fadd (fmul (vZ (Size a)) (flit 5)) (flit (5 # 2)) in
  mmodify (set_offsetDiff offsetDiffX offsetDiffY offsetDiffZ) ;;
  let OffsetPos := mkFVector (if negX then fneg offsetDiffX else offsetDiffX)
                             (if negY then fneg offsetDiffY else offsetDiffY)
                             (fneg offsetDiffZ) in
  on_buffers (GenerateCube (LegSize a) OffsetPos) ;;
  CreateSectionFromBuffers SectionIndex BoundingBox ;;
  on_mesh (SetMaterial SectionIndex (Material a)).

(** [ATableActor::GenerateMesh] *)
Definition GenerateMesh (junkV : nat -> Vertex) (junkT : nat -> Z) : M ATableActor unit :=
  a <- mget ;;
  (if negb (bHaveBuffersBeenInitialized a) then
     SetupMeshBuffers junkV junkT ;;
     mmodify (set_initialized true)
   else mret tt) ;;
  a <- mget ;;
  let BoundingBox := FBox_make (FVector_div (FVector_neg (Size a)) (flit 2))
                               (FVector_div (Size a) (flit 2)) in
  let OffsetPos := mkFVector (flit 0) (flit 0) (flit 0) in
  on_buffers (GenerateCube (Size a) OffsetPos) ;;
  on_mesh ClearAllMeshSections ;;
  CreateSectionFromBuffers 0 BoundingBox ;;
  on_mesh (SetMaterial 0 (Material a)) ;;
  (* create 1st .. 4th leg *)
  GenerateLeg 1 false false BoundingBox ;;
  GenerateLeg 2 true false BoundingBox ;;
  GenerateLeg 3 false true BoundingBox ;;
  GenerateLeg 4 true true BoundingBox.

(** [ATableActor::ATableActor()], statement by statement: the root
    scene component and the mesh component are created as default
    subobjects (the mesh component [c0], with no section, not yet
    attached; its serialisation flag is overwritten at once), the flag
    is cleared and the mesh component attached to the root.  The
    buffers are empty and [bHaveBuffersBeenInitialized] is clear, as in
    a freshly zeroed [UObject]; the editable members and
    [offsetDiffX/Y/Z] hold their defaults. *)
Definition ATableActor_ctor (Size LegSize : FVector R) (Material : Mat) (c0 : C) (d : R)
    : ATableActor :=
  let RootComponent := SubobjectNames.Root in
  let Scene := mkScene RootComponent SubobjectNames.ProceduralMesh None true in
  let Scene := set_bShouldSerializeMeshData false Scene in
  let Scene := SetupAttachment RootComponent Scene in
  mkActor Size LegSize Material false [] [] d d d c0 Scene.

(** ** What [GenerateMesh] should produce *)

Definition origin : FVector R := mkFVector (flit 0) (flit 0) (flit 0).

(** The centre of a leg: the X and Y offsets [Size/2 - 2.5], with the
    given signs, and the drop [-(Size.Z * 5 + 2.5)]. *)
Definition leg_offset (Size : FVector R) (negX negY : bool) : FVector R :=
  let x := fsub (fdiv (vX Size) (flit 2)) (flit (5 # 2)) in
  let y := fsub (fdiv (vY Size) (flit 2)) (flit (5 # 2)) in
  let z := fadd (fmul (vZ Size) (flit 5)) (flit (5 # 2)) in
  mkFVector (if negX then fneg x else x) (if negY then fneg y else y) (fneg z).

(** The table's five boxes: section index, size and centre. *)
Definition table_parts (Size LegSize : FVector R) : list (Z * FVector R * FVector R) :=
  [ (0%Z, Size, origin);
    (1%Z, LegSize, leg_offset Size false false);
    (2%Z, LegSize, leg_offset Size true false);
    (3%Z, LegSize, leg_offset Size false true);
    (4%Z, LegSize, leg_offset Size true true) ].

(** The bounding box every section is given: the tabletop's. *)
Definition table_bounds (Size : FVector R) : FBox R :=
  FBox_make (FVector_div (FVector_neg Size) (flit 2)) (FVector_div Size (flit 2)).

(** The section of a box of size [s] at [o], built in buffers [V]. *)
Definition part_section (V : list Vertex) (bb : FBox R) (s o : FVector R) : MeshSection R :=
  mkSection (write_attrs 0 (box_attrs s o) V) box_indices bb true Infrequent.

(** The mesh component after the five create/set-material pairs. *)
Definition generated_mesh (V : list Vertex) (bb : FBox R) (m : Mat)
    (parts : list (Z * FVector R * FVector R)) (c : C) : C :=
  fold_left (fun c '(i, s, o) => SetMaterial i m (CreateMeshSection i (part_section V bb s o) c))
    parts (ClearAllMeshSections c).

(** The buffers [GenerateMesh] builds into: the members if they were
    allocated, otherwise the 24 and 36 uninitialised cells. *)
Definition buffers_before (junkV : nat -> Vertex) (junkT : nat -> Z) (a : ATableActor)
    : list Vertex * list Z :=
  if bHaveBuffersBeenInitialized a then (Vertices a, Triangles a)
  else (AddUninitialized junkV 24 (Vertices a), AddUninitialized junkT 36 (Triangles a)).

(** The whole actor after [GenerateMesh]. *)
Definition after_GenerateMesh (junkV : nat -> Vertex) (junkT : nat -> Z) (a : ATableActor)
    : ATableActor :=
  let '(V, _) := buffers_before junkV junkT a in
  let S := Size a in
  mkActor S (LegSize a) (Material a) true
    (write_attrs 0 (box_attrs (LegSize a) (leg_offset S true true)) V) box_indices
    (fsub (fdiv (vX S) (flit 2)) (flit (5 # 2))) (fsub (fdiv (vY S) (flit 2)) (flit (5 # 2)))
    (fadd (fmul (vZ S) (flit 5)) (flit (5 # 2)))
    (generated_mesh V (table_bounds S) (Material a) (table_parts S (LegSize a)) (MeshComponent a))
    (Scene a).

(** The invariant of the buffers: empty before the first
    [GenerateMesh], exactly one box's worth after. *)
Definition buffers_inv (a : ATableActor) : Prop :=
  (bHaveBuffersBeenInitialized a = false /\ Vertices a = [] /\ Triangles a = []) \/
  (bHaveBuffersBeenInitialized a = true /\ length (Vertices a) = 24%nat /\
   length (Triangles a) = 36%nat).

(** ** Steps *)

Lemma mbind_mget {B} (k : ATableActor -> M ATableActor B) a : mbind mget k a = k a a.
Proof. reflexivity. Qed.

Lemma mbind_mmodify {B} f (k : unit -> M ATableActor B) a : mbind (mmodify f) k a = k tt (f a).
Proof. reflexivity. Qed.

Lemma list_inserts_0_full {A} (k l : list A) :
  length k = length l -> list_inserts 0 k l = k.
Proof. intros Hl. rewrite <- (app_nil_r l) at 1. rewrite list_inserts_0_r by done. apply app_nil_r. Qed.

Lemma write_attrs_0_overwrite (x y : list (VertexAttrs R)) (l : list Vertex) :
  length x = length y -> (length y <= length l)%nat ->
  write_attrs 0 x (write_attrs 0 y l) = write_attrs 0 x l.
Proof.
  intros Hxy Hl. destruct (split_at l (length y)) as (m & r & -> & Hm); [lia |].
  rewrite !write_attrs_0_app by (rewrite ?length_zip_with; lia).
  f_equal. clear Hl. revert m y Hxy Hm.
  induction x as [|p x IH]; intros [|v m] [|q y] ? ?; simpl in *; try lia; [done |].
  f_equal. apply IH; lia.
Qed.

Lemma on_buffers_GenerateCube s o (a : ATableActor) :
  length (Vertices a) = 24%nat -> length (Triangles a) = 36%nat ->
  on_buffers (GenerateCube s o) a =
  inr (tt, set_buffers (mkBuffers (write_attrs 0 (box_attrs s o) (Vertices a)) box_indices) a).
Proof.
  intros HV HT. unfold on_buffers. rewrite GenerateCube_correct by lia.
  rewrite list_inserts_0_full by (rewrite length_box_indices; done). done.
Qed.

(** The actor after one leg block. *)
Definition leg_after (i : Z) (negX negY : bool) (bb : FBox R) (a : ATableActor) : ATableActor :=
  let S := Size a in
  let V' := write_attrs 0 (box_attrs (LegSize a) (leg_offset S negX negY)) (Vertices a) in
  mkActor S (LegSize a) (Material a) (bHaveBuffersBeenInitialized a) V' box_indices
    (fsub (fdiv (vX S) (flit 2)) (flit (5 # 2))) (fsub (fdiv (vY S) (flit 2)) (flit (5 # 2)))
    (fadd (fmul (vZ S) (flit 5)) (flit (5 # 2)))
    (SetMaterial i (Material a) (CreateMeshSection i (mkSection V' box_indices bb true Infrequent)
       (MeshComponent a)))
    (Scene a).

(** The leg block on allocated buffers. *)
Lemma GenerateLeg_spec i negX negY bb (a : ATableActor) :
  length (Vertices a) = 24%nat -> length (Triangles a) = 36%nat ->
  GenerateLeg i negX negY bb a = inr (tt, leg_after i negX negY bb a).
Proof.
  intros HV HT. unfold GenerateLeg. rewrite mbind_mget, mbind_mmodify. cbv beta.
  erewrite mbind_inr by (apply on_buffers_GenerateCube; assumption). reflexivity.
Qed.

(** The actor after the allocation block of [GenerateMesh]. *)
Definition setup_after (junkV : nat -> Vertex) (junkT : nat -> Z) (a : ATableActor) : ATableActor :=
  if bHaveBuffersBeenInitialized a then a
  else set_initialized true
         (set_buffers (mkBuffers (AddUninitialized junkV 24 (Vertices a))
                                 (AddUninitialized junkT 36 (Triangles a))) a).

Lemma setup_after_spec junkV junkT (a : ATableActor) :
  (if negb (bHaveBuffersBeenInitialized a) then
     SetupMeshBuffers junkV junkT ;; mmodify (set_initialized true)
   else mret tt) a = inr (tt, setup_after junkV junkT a).
Proof. unfold setup_after. by destruct (bHaveBuffersBeenInitialized a). Qed.

Lemma setup_after_fields junkV junkT (a : ATableActor) :
  let a1 := setup_after junkV junkT a in
  Size a1 = Size a /\ LegSize a1 = LegSize a /\ Material a1 = Material a /\
  bHaveBuffersBeenInitialized a1 = true \/ bHaveBuffersBeenInitialized a = false /\
  bHaveBuffersBeenInitialized a1 = true.
Proof. unfold setup_after. destruct (bHaveBuffersBeenInitialized a) eqn:E; simpl; auto. Qed.

(** The actor after the tabletop block. *)
Definition table_after (a : ATableActor) : ATableActor :=
  let S := Size a in
  let V' := write_attrs 0 (box_attrs S origin) (Vertices a) in
  mkActor S (LegSize a) (Material a) (bHaveBuffersBeenInitialized a) V' box_indices
    (offsetDiffX a) (offsetDiffY a) (offsetDiffZ a)
    (SetMaterial 0 (Material a) (CreateMeshSection 0
       (mkSection V' box_indices (table_bounds S) true Infrequent)
       (ClearAllMeshSections (MeshComponent a))))
    (Scene a).
End Table.

Arguments ATableActor R Mat C : clear implicits.

Ltac actor_simpl :=
  cbn [Size LegSize Material bHaveBuffersBeenInitialized Vertices Triangles offsetDiffX
       offsetDiffY offsetDiffZ MeshComponent Scene set_buffers
       set_initialized set_offsetDiff set_mesh InVertices InTriangles] in *.

Section TableSpec.
Context {R Mat C : Type} `{FloatOps R} `{RuntimeMeshComponent R Mat C}.

Lemma GenerateMesh_correct junkV junkT (a : ATableActor R Mat C) :
  buffers_inv a ->
  GenerateMesh junkV junkT a = inr (tt, after_GenerateMesh junkV junkT a).
Proof.
  intros Hinv.
  assert (length (Vertices (setup_after junkV junkT a)) = 24%nat /\
          length (Triangles (setup_after junkV junkT a)) = 36%nat) as [HV HT].
  { unfold setup_after. destruct Hinv as [[-> [-> ->]] | [-> [-> ->]]]; done. }
  unfold GenerateMesh. rewrite mbind_mget. cbv beta.
  erewrite mbind_inr by apply setup_after_spec. rewrite mbind_mget. cbv beta zeta.
  erewrite mbind_inr by (apply on_buffers_GenerateCube; assumption).
  unfold on_mesh, CreateSectionFromBuffers. rewrite !mbind_mmodify.
  do 3 (erewrite mbind_inr by (apply GenerateLeg_spec; unfold leg_after; actor_simpl;
                               rewrite ?length_write_attrs; (done || apply length_box_indices))).
  rewrite GenerateLeg_spec by (unfold leg_after; actor_simpl;
                               rewrite ?length_write_attrs; (done || apply length_box_indices)).
  f_equal. f_equal. unfold leg_after; actor_simpl.
  repeat rewrite write_attrs_0_overwrite by (rewrite ?length_box_attrs, ?length_write_attrs; lia).
  unfold after_GenerateMesh, buffers_before, setup_after, generated_mesh, part_section, table_parts.
  destruct (bHaveBuffersBeenInitialized a) eqn:E; actor_simpl; rewrite ?E; reflexivity.
Qed.

(** C1. Refinement: from a state satisfying the buffer invariant,
    [GenerateMesh] completes, and the actor afterwards is
    [after_GenerateMesh]: buffers allocated, the last leg in the
    buffers, the members [offsetDiff*] set, and the mesh component
    cleared and given the five sections of [table_parts] with the
    material. *)
Theorem GenerateMesh_spec junkV junkT (a : ATableActor R Mat C) :
  buffers_inv a ->
  GenerateMesh junkV junkT a = inr (tt, after_GenerateMesh junkV junkT a).
Proof. apply GenerateMesh_correct. Qed.

(** ** The sections and materials, through the component's laws *)

Section WithLaws.
Context `{!RuntimeMeshLaws R Mat C}.

Lemma GetSection_generated_mesh V bb m S L c i :
  GetSection (generated_mesh V bb m (table_parts S L) c) i =
  if decide (i = 0%Z) then Some (part_section V bb S origin)
  else if decide (i = 1%Z) then Some (part_section V bb L (leg_offset S false false))
  else if decide (i = 2%Z) then Some (part_section V bb L (leg_offset S true false))
  else if decide (i = 3%Z) then Some (part_section V bb L (leg_offset S false true))
  else if decide (i = 4%Z) then Some (part_section V bb L (leg_offset S true true))
  else None.
Proof.
  unfold generated_mesh, table_parts. cbn [fold_left]. rewrite !GetSection_SetMaterial.
  repeat case_decide; subst;
    repeat first [ rewrite GetSection_Create_eq; reflexivity
                 | rewrite GetSection_Create_ne by lia; rewrite ?GetSection_SetMaterial ];
    apply GetSection_Clear.
Qed.

Lemma GetMaterial_generated_mesh V bb m S L c i :
  GetMaterial (generated_mesh V bb m (table_parts S L) c) i =
  if decide (0 <= i <= 4)%Z then Some m else GetMaterial c i.
Proof.
  unfold generated_mesh, table_parts. cbn [fold_left].
  case_decide.
  - assert (i = 0 \/ i = 1 \/ i = 2 \/ i = 3 \/ i = 4)%Z
      as [-> | [-> | [-> | [-> | ->]]]] by lia;
    repeat first [ rewrite GetMaterial_Set_eq; reflexivity
                 | rewrite GetMaterial_Set_ne by lia
                 | rewrite GetMaterial_Create ].
  - repeat first [ rewrite GetMaterial_Set_ne by lia | rewrite GetMaterial_Create ].
    apply GetMaterial_Clear.
Qed.

Lemma GenerateMesh_section_contents junkV junkT (a a' : ATableActor R Mat C) :
  buffers_inv a -> GenerateMesh junkV junkT a = inr (tt, a') ->
  let V := fst (buffers_before junkV junkT a) in
  let bb := table_bounds (Size a) in
  (forall i s o, In (i, s, o) (table_parts (Size a) (LegSize a)) ->
     GetSection (MeshComponent a') i = Some (part_section V bb s o)) /\
  (forall i, (i < 0 \/ 4 < i)%Z -> GetSection (MeshComponent a') i = None).
Proof.
  intros Hinv Hg. rewrite GenerateMesh_correct in Hg by done. apply inr_snd_inj in Hg. subst a'.
  unfold after_GenerateMesh. destruct (buffers_before junkV junkT a) as [V T]. cbn -[generated_mesh].
  split.
  - intros i s o Hin. rewrite GetSection_generated_mesh.
    simpl in Hin. destruct Hin as [Hp | [Hp | [Hp | [Hp | [Hp | []]]]]]; injection Hp as <- <- <-;
      repeat case_decide; try lia; reflexivity.
  - intros i Hi. rewrite GetSection_generated_mesh. repeat case_decide; try lia. done.
Qed.

(** C5. After [GenerateMesh] the component holds exactly five sections:
    section 0 is the tabletop (a box of [Size] at the origin), sections
    1 to 4 the legs (boxes of [LegSize] at the four [leg_offset]s), each
    with the 36 indices of one box, the tabletop's bounds, collision on
    and [Infrequent] updates; every other index has no section. *)
Theorem GenerateMesh_sections junkV junkT (a a' : ATableActor R Mat C) :
  buffers_inv a -> GenerateMesh junkV junkT a = inr (tt, a') ->
  let V := fst (buffers_before junkV junkT a) in
  let bb := table_bounds (Size a) in
  (forall i s o, In (i, s, o) (table_parts (Size a) (LegSize a)) ->
     GetSection (MeshComponent a') i = Some (part_section V bb s o)) /\
  (forall i, (i < 0 \/ 4 < i)%Z -> GetSection (MeshComponent a') i = None).
Proof. apply GenerateMesh_section_contents. Qed.

(** C23. After [GenerateMesh] material slots 0 to 4 hold [Material]; the
    other slots are as before. *)
Theorem GenerateMesh_materials junkV junkT (a a' : ATableActor R Mat C) i :
  buffers_inv a -> GenerateMesh junkV junkT a = inr (tt, a') ->
  GetMaterial (MeshComponent a') i =
  if decide (0 <= i <= 4)%Z then Some (Material a) else GetMaterial (MeshComponent a) i.
Proof.
  intros Hinv Hg. rewrite GenerateMesh_correct in Hg by done. apply inr_snd_inj in Hg. subst a'.
  unfold after_GenerateMesh. destruct (buffers_before junkV junkT a) as [V T].
  cbn -[generated_mesh]. apply GetMaterial_generated_mesh.
Qed.
End WithLaws.
End TableSpec.

(** ** Witnesses at concrete inputs *)

(** A 100 x 100 x 50 tabletop with 5 x 5 x 455 legs, material handle 7,
    in a fresh component; uninitialised memory reads as zeros. *)
Definition leg_size : FVector Q := mkFVector 5%Q 5%Q 455%Q.
Definition table_actor : ATableActor Q nat (RMCState Q nat) :=
  ATableActor_ctor table_size leg_size 7%nat RMC_empty 0%Q.
Definition junk_vertex (_ : nat) : FRuntimeMeshVertexSimple Q := zero_vertex.
Definition junk_index (_ : nat) : Z := 0%Z.

Lemma table_actor_inv : buffers_inv table_actor.
Proof. left. split_and!; reflexivity. Qed.

Lemma table_mesh_run :
  GenerateMesh junk_vertex junk_index table_actor =
  inr (tt, after_GenerateMesh junk_vertex junk_index table_actor).
Proof. apply GenerateMesh_correct. exact table_actor_inv. Qed.

Lemma table_mesh_section2 :
  GetSection (MeshComponent (after_GenerateMesh junk_vertex junk_index table_actor)) 2%Z =
  Some (part_section (fst (buffers_before junk_vertex junk_index table_actor))
          (table_bounds table_size) leg_size (leg_offset table_size true false)).
Proof.
  apply (proj1 (GenerateMesh_section_contents junk_vertex junk_index table_actor _
                  table_actor_inv table_mesh_run)).
  simpl. right; right; left. reflexivity.
Qed.

Lemma GenerateMesh_spec_witness :
  GenerateMesh junk_vertex junk_index table_actor =
  inr (tt, after_GenerateMesh junk_vertex junk_index table_actor).
Proof. apply GenerateMesh_spec. left. split_and!; reflexivity. Defined.

Lemma GenerateMesh_sections_witness :
  GetSection (MeshComponent (after_GenerateMesh junk_vertex junk_index table_actor)) 2%Z =
  Some (part_section (fst (buffers_before junk_vertex junk_index table_actor))
          (table_bounds table_size) leg_size (leg_offset table_size true false)).
Proof.
  apply (proj1 (GenerateMesh_sections junk_vertex junk_index table_actor _
                  table_actor_inv table_mesh_run)).
  simpl. right; right; left. reflexivity.
Defined.

Lemma GenerateMesh_materials_witness :
  GetMaterial (MeshComponent (after_GenerateMesh junk_vertex junk_index table_actor)) 3%Z =
  Some 7%nat.
Proof.
  rewrite (GenerateMesh_materials junk_vertex junk_index table_actor _ 3%Z
             table_actor_inv table_mesh_run).
  reflexivity.
Defined.
