(* ===== verification/Lifecycle.v ===== *)
(** * The actor's life cycle

    The engine creates the actor with its constructor and then calls
    [OnConstruction] (in the editor, whenever the actor is placed or a
    property changes) and [BeginPlay] (when play starts); both call
    [GenerateMesh].  Between calls the editor may change the editable
    properties [Size], [LegSize] and [Material].  [step] is this as a
    transition relation over [ATableActor]; [reachable] the states the
    engine can bring the actor to.  The theorems: every reachable state
    satisfies the buffer invariant, [GenerateMesh] never faults in one,
    and after any call the mesh holds the five boxes of the current
    properties. *)

From S2P Require Import Prelude Vector Quad Cube RuntimeMesh Table.
From Stdlib Require Import QArith_base.
Close Scope Q_scope.

Section Lifecycle.
Context {R Mat C : Type} `{FloatOps R} `{RuntimeMeshComponent R Mat C}.
Abbreviation Actor := (ATableActor R Mat C).
Abbreviation Vertex := (FRuntimeMeshVertexSimple R).

(** What the engine does to the actor. *)
Inductive ActorEvent : Type :=
| EvOnConstruction
| EvBeginPlay
| EvEditProperties (Size LegSize : FVector R) (Material : Mat).

(** An edit of the three editable properties in the editor. *)
Definition set_props (S L : FVector R) (m : Mat) (a : Actor) : Actor :=
  mkActor S L m (bHaveBuffersBeenInitialized a) (Vertices a) (Triangles a)
    (offsetDiffX a) (offsetDiffY a) (offsetDiffZ a) (MeshComponent a)
    (Scene a).

(** [OnConstruction] and [BeginPlay] run [Super::...] (which does not
    touch these members) and [GenerateMesh]; the uninitialised memory
    of the first allocation is arbitrary. *)
Inductive step : Actor -> ActorEvent -> Actor -> Prop :=
| step_OnConstruction (junkV : nat -> Vertex) (junkT : nat -> Z) a a' :
    GenerateMesh junkV junkT a = inr (tt, a') -> step a EvOnConstruction a'
| step_BeginPlay (junkV : nat -> Vertex) (junkT : nat -> Z) a a' :
    GenerateMesh junkV junkT a = inr (tt, a') -> step a EvBeginPlay a'
| step_EditProperties S L m a :
    step a (EvEditProperties S L m) (set_props S L m a).

(** The states reachable from a freshly constructed actor; the
    component [CreateDefaultSubobject] makes has no section yet. *)
Inductive reachable : Actor -> Prop :=
| reachable_ctor S L m c0 d :
    (forall i, GetSection c0 i = None) -> reachable (ATableActor_ctor S L m c0 d)
| reachable_step a e a' : reachable a -> step a e a' -> reachable a'.

Lemma buffers_inv_after junkV junkT (a : Actor) :
  buffers_inv a -> buffers_inv (after_GenerateMesh junkV junkT a).
Proof.
  intros Hinv. right. unfold after_GenerateMesh, buffers_before.
  destruct Hinv as [[Hb [-> ->]] | [Hb [HV HT]]]; rewrite Hb; cbn;
    rewrite ?length_write_attrs, ?length_box_indices; auto.
Qed.

Lemma buffers_inv_set_props S L m (a : Actor) :
  buffers_inv a -> buffers_inv (set_props S L m a).
Proof. done. Qed.

Lemma reachable_inv (a : Actor) : reachable a -> buffers_inv a.
Proof.
  induction 1 as [S L m c0 d _ | a e a' Hr IH Hs].
  - left. done.
  - inversion Hs as [jv jt ? ? Hg | jv jt ? ? Hg | ]; subst;
      [rewrite GenerateMesh_correct in Hg by done; apply inr_snd_inj in Hg; subst;
       by apply buffers_inv_after .. | by apply buffers_inv_set_props].
Qed.

(** C4. Invariant: in every state the engine can bring the actor to, the
    buffers are either unallocated and empty or allocated with exactly
    24 vertices and 36 indices. *)
Theorem reachable_buffers_inv (a : Actor) : reachable a -> buffers_inv a.
Proof. apply reachable_inv. Qed.

Lemma reachable_GenerateMesh (a : Actor) junkV junkT :
  reachable a -> GenerateMesh junkV junkT a = inr (tt, after_GenerateMesh junkV junkT a).
Proof. intros Hr. apply GenerateMesh_correct, reachable_inv, Hr. Qed.

(** C3. Safety: in a reachable state [GenerateMesh] never trips a [TArray]
    range check nor overflows an offset, whatever the uninitialised
    memory holds. *)
Theorem reachable_GenerateMesh_ok (a : Actor) junkV junkT :
  reachable a -> GenerateMesh junkV junkT a = inr (tt, after_GenerateMesh junkV junkT a).
Proof. apply reachable_GenerateMesh. Qed.

(** C25. Every event the engine may send is accepted in every reachable
    state. *)
Theorem reachable_can_step (a : Actor) e : reachable a -> exists a', step a e a'.
Proof.
  intros Hr. set (jv := fun _ : nat => match Vertices a with v :: _ => v | [] => mkVertex
     (Size a) (mkFPackedNormal (Size a)) (mkFPackedNormal (Size a)) (mkFColor 0 0 0 0)
     (mkFVector2D (vX (Size a)) (vX (Size a))) end).
  destruct e.
  - eexists. apply (step_OnConstruction jv (fun _ => 0%Z)). by apply reachable_GenerateMesh.
  - eexists. apply (step_BeginPlay jv (fun _ => 0%Z)). by apply reachable_GenerateMesh.
  - eexists. constructor.
Qed.

Section WithLaws.
Context `{!RuntimeMeshLaws R Mat C}.

(** C24. After [BeginPlay] (or [OnConstruction]) in any reachable state, the
    mesh sections are the five boxes of the current properties, and no
    other section exists. *)
Theorem step_BeginPlay_sections (a a' : Actor) :
  reachable a -> step a EvBeginPlay a' ->
  exists V : list Vertex, length V = 24%nat /\
  (forall i s o, In (i, s, o) (table_parts (Size a) (LegSize a)) ->
     GetSection (MeshComponent a') i = Some (part_section V (table_bounds (Size a)) s o)) /\
  (forall i, (i < 0 \/ 4 < i)%Z -> GetSection (MeshComponent a') i = None).
Proof.
  intros Hr Hs. inversion Hs as [| jv jt ? ? Hg |]; subst.
  pose proof (reachable_inv a Hr) as Hinv.
  exists (fst (buffers_before jv jt a)). split.
  - unfold buffers_before. destruct Hinv as [[-> [-> _]] | [-> [? _]]]; done.
  - by apply (GenerateMesh_section_contents jv jt).
Qed.

(** C15. The vertex colours are never written: the first [GenerateMesh] of
    a new actor hands the renderer, in every section, the colours the
    uninitialised memory of [AddUninitialized] held. *)
Theorem first_GenerateMesh_colors S L m c0 d junkV junkT (a' : Actor) s i :
  GenerateMesh junkV junkT (ATableActor_ctor S L m c0 d) = inr (tt, a') ->
  GetSection (MeshComponent a') i = Some s ->
  map Color (SecVertices s) = map (fun k => Color (junkV k)) (seq 0 24).
Proof.
  intros Hg Hs.
  assert (Hinv : buffers_inv (ATableActor_ctor S L m c0 d)) by (left; split_and!; reflexivity).
  destruct (GenerateMesh_section_contents _ _ _ _ Hinv Hg) as [Hin Hout].
  assert (i = 0 \/ i = 1 \/ i = 2 \/ i = 3 \/ i = 4)%Z as Hi.
  { destruct (decide (0 <= i <= 4)%Z); [lia |]. rewrite Hout in Hs by lia. discriminate. }
  destruct Hi as [-> | [-> | [-> | [-> | ->]]]];
    [ rewrite (Hin 0%Z S origin) in Hs by (simpl; repeat (first [left; reflexivity | right]))
    | rewrite (Hin 1%Z L (leg_offset S false false)) in Hs by (simpl; repeat (first [left; reflexivity | right]))
    | rewrite (Hin 2%Z L (leg_offset S true false)) in Hs by (simpl; repeat (first [left; reflexivity | right]))
    | rewrite (Hin 3%Z L (leg_offset S false true)) in Hs by (simpl; repeat (first [left; reflexivity | right]))
    | rewrite (Hin 4%Z L (leg_offset S true true)) in Hs by (simpl; repeat (first [left; reflexivity | right])) ];
    injection Hs as <-; unfold part_section; cbn [SecVertices];
    rewrite map_Color_write_attrs; reflexivity.
Qed.
End WithLaws.
End Lifecycle.

(** ** Witnesses at concrete inputs *)

Lemma table_actor_reachable : reachable table_actor.
Proof. constructor. reflexivity. Qed.

Lemma reachable_buffers_inv_witness : buffers_inv table_actor.
Proof. apply reachable_buffers_inv. constructor. reflexivity. Defined.

Lemma reachable_GenerateMesh_ok_witness :
  GenerateMesh junk_vertex junk_index table_actor =
  inr (tt, after_GenerateMesh junk_vertex junk_index table_actor).
Proof. apply reachable_GenerateMesh_ok. constructor. reflexivity. Defined.

Lemma reachable_can_step_witness : exists a', step table_actor EvBeginPlay a'.
Proof. apply reachable_can_step. constructor. reflexivity. Defined.

Lemma step_BeginPlay_sections_witness :
  exists V : list (FRuntimeMeshVertexSimple Q), length V = 24%nat /\
  (forall i s o, In (i, s, o) (table_parts table_size leg_size) ->
     GetSection (MeshComponent (after_GenerateMesh junk_vertex junk_index table_actor)) i =
     Some (part_section V (table_bounds table_size) s o)) /\
  (forall i, (i < 0 \/ 4 < i)%Z ->
     GetSection (MeshComponent (after_GenerateMesh junk_vertex junk_index table_actor)) i = None).
Proof.
  apply (step_BeginPlay_sections table_actor); [constructor; reflexivity |].
  apply (step_BeginPlay junk_vertex junk_index). apply table_mesh_run.
Defined.

Lemma first_GenerateMesh_colors_witness :
  map Color (SecVertices (part_section (fst (buffers_before junk_vertex junk_index table_actor))
                            (table_bounds table_size) leg_size (leg_offset table_size true false))) =
  map (fun k => Color (junk_vertex k)) (seq 0 24).
Proof.
  apply (first_GenerateMesh_colors table_size leg_size 7%nat RMC_empty 0%Q junk_vertex junk_index
           (after_GenerateMesh junk_vertex junk_index table_actor) _ 2%Z).
  - apply table_mesh_run.
  - apply table_mesh_section2.
Defined.
