(* ===== verification/Geometry.v ===== *)
(** * Geometry of the generated mesh, in exact rational arithmetic

    [FloatOps_Q] interprets the source's float operations as exact
    operations on [Q].  Over it, this file states what the corner
    labelling and the face table of [GenerateCube] mean geometrically:
    each face lies on the plane half a size from the centre along its
    normal, both triangles of each face have the same orientation
    relative to it, the tangents point against the direction of
    increasing U on five faces and along it on one, moving the box
    moves its positions and nothing else, the bounding box
    the sections are given is the tightest box around the tabletop,
    and the legs [GenerateMesh] places hang below it.  Equalities are
    [Qeq] ([==]). *)

From S2P Require Import Prelude Vector Quad Cube RuntimeMesh Table.
From Stdlib Require Import QArith Qfield Lqa.

Open Scope Q_scope.

(** ** Vector algebra *)

Definition vsub (a b : FVector Q) : FVector Q :=
  mkFVector (vX a - vX b) (vY a - vY b) (vZ a - vZ b).

Definition vadd (a b : FVector Q) : FVector Q :=
  mkFVector (vX a + vX b) (vY a + vY b) (vZ a + vZ b).

Definition dot (a b : FVector Q) : Q := vX a * vX b + vY a * vY b + vZ a * vZ b.

Definition cross (a b : FVector Q) : FVector Q :=
  mkFVector (vY a * vZ b - vZ a * vY b) (vZ a * vX b - vX a * vZ b) (vX a * vY b - vY a * vX b).

(** Pointwise equality of vectors. *)
Definition veq (a b : FVector Q) : Prop := vX a == vX b /\ vY a == vY b /\ vZ a == vZ b.

#[export] Instance veq_Equivalence : Equivalence veq.
Proof.
  split.
  - intros a. split_and!; reflexivity.
  - intros a b (?&?&?). split_and!; symmetry; done.
  - intros a b c (?&?&?) (?&?&?). split_and!; etransitivity; eauto.
Qed.

#[export] Instance vsub_Proper : Proper (veq ==> veq ==> veq) vsub.
Proof. intros a a' (?&?&?) b b' (?&?&?). unfold vsub, veq; simpl. split_and!; lra. Qed.

#[export] Instance dot_Proper : Proper (veq ==> veq ==> Qeq) dot.
Proof.
  intros a a' (Ha1&Ha2&Ha3) b b' (Hb1&Hb2&Hb3). unfold dot.
  rewrite Ha1, Ha2, Ha3, Hb1, Hb2, Hb3. reflexivity.
Qed.

#[export] Instance cross_Proper : Proper (veq ==> veq ==> veq) cross.
Proof.
  intros a a' (Ha1&Ha2&Ha3) b b' (Hb1&Hb2&Hb3). unfold cross, veq; simpl.
  rewrite Ha1, Ha2, Ha3, Hb1, Hb2, Hb3. split_and!; reflexivity.
Qed.

(** The orientation of the triangle [a b c] seen from the side [n]
    points to, in Unreal's left-handed frame (X forward, Y right, Z up):
    positive when the corners run counter-clockwise.  In a left-handed
    frame that is the opposite sign of the right-handed triple product. *)
Definition orientation (a b c n : FVector Q) : Q := - dot (cross (vsub b a) (vsub c a)) n.

#[export] Instance orientation_Proper : Proper (veq ==> veq ==> veq ==> veq ==> Qeq) orientation.
Proof.
  intros a a' Ha b b' Hb c c' Hc n n' Hn. unfold orientation.
  rewrite Ha, Hb, Hc, Hn. reflexivity.
Qed.

(** ** The faces *)

Definition vec_normal (f : Face) : FVector Q := vec_of (face_normal f).
Definition vec_tangent (f : Face) : FVector Q := vec_of (face_tangent f).

(** The extent of the box along the face's normal, and the extents of
    the face itself: along its first edge (bottom-left to bottom-right,
    the direction of increasing U) and across it. *)
Definition normal_extent (S : FVector Q) (f : Face) : Q :=
  match f with Front | Back => vX S | Left | Right => vY S | Top | Bottom => vZ S end.
Definition u_extent (S : FVector Q) (f : Face) : Q :=
  match f with Front | Back | Top | Bottom => vY S | Left | Right => vX S end.
Definition v_extent (S : FVector Q) (f : Face) : Q :=
  match f with Front | Back | Left | Right => vZ S | Top | Bottom => vX S end.

Ltac geo_unfold :=
  unfold orientation, dot, cross, vsub, corner, face_corner, corner_signs, signed, vec_normal,
    vec_tangent, vec_of, face_normal, face_tangent, face_corners, FVector_of_ints, inject_Z,
    normal_extent, u_extent, v_extent, fadd, fsub, fmul, fdiv, fneg, flit, FloatOps_Q;
  cbn -[Qeq Qplus Qminus Qmult Qdiv Qopp Qinv Qlt Qle].

(** C22. Each face lies on the plane at half the box's extent from the centre,
    on the side its normal points to: the normals point outwards. *)
Theorem face_plane (S O : FVector Q) (f : Face) (k : nat) :
  dot (vsub (corner S O (face_corner f k)) O) (vec_normal f) == normal_extent S f / 2.
Proof.
  destruct f; do 5 (destruct k as [|k]; [geo_unfold; field |]); geo_unfold; field.
Qed.

(** Each tangent is perpendicular to its face's normal. *)
Theorem tangent_normal_orthogonal (f : Face) : dot (vec_tangent f) (vec_normal f) == 0.
Proof. destruct f; reflexivity. Qed.

Lemma face_orientation (S O : FVector Q) (f : Face) :
  let p k := corner S O (face_corner f k) in
  orientation (p 0%nat) (p 1%nat) (p 2%nat) (vec_normal f) == u_extent S f * v_extent S f /\
  orientation (p 0%nat) (p 2%nat) (p 3%nat) (vec_normal f) == u_extent S f * v_extent S f.
Proof. destruct f; split; geo_unfold; field. Qed.

(** C12. Winding: both triangles of every face, 0-1-2 and 0-2-3, are
    counter-clockwise seen from outside, with twice their area the
    product of the face's two extents, whatever the offset. *)
Theorem face_winding (S O : FVector Q) (f : Face) :
  let p k := corner S O (face_corner f k) in
  orientation (p 0%nat) (p 1%nat) (p 2%nat) (vec_normal f) == u_extent S f * v_extent S f /\
  orientation (p 0%nat) (p 2%nat) (p 3%nat) (vec_normal f) == u_extent S f * v_extent S f.
Proof. apply face_orientation. Qed.

(** For a box of strictly positive size both triangles of every face
    are strictly counter-clockwise seen from outside. *)
Corollary face_winding_positive (S O : FVector Q) (f : Face) :
  0 < vX S -> 0 < vY S -> 0 < vZ S ->
  let p k := corner S O (face_corner f k) in
  0 < orientation (p 0%nat) (p 1%nat) (p 2%nat) (vec_normal f) /\
  0 < orientation (p 0%nat) (p 2%nat) (p 3%nat) (vec_normal f).
Proof.
  intros Hx Hy Hz. destruct (face_orientation S O f) as [E1 E2]. cbv zeta in *.
  rewrite E1, E2.
  assert (0 < u_extent S f * v_extent S f) by (destruct f; simpl; apply Qmult_lt_0_compat; done).
  split; done.
Qed.

(** C14. The tangent compared with the direction of increasing U (from the
    bottom-left corner, U = 0, to the bottom-right corner, U = 1): it
    points along it on the top face only, and against it on the other
    five. *)
Theorem tangent_along_u (S O : FVector Q) (f : Face) :
  dot (vsub (corner S O (face_corner f 1)) (corner S O (face_corner f 0))) (vec_tangent f) ==
  (if f is Top then 1 else -1) * u_extent S f.
Proof. destruct f; geo_unfold; field. Qed.

(** ** Placement of the legs *)

Ltac lin_unfold :=
  unfold corner, corner_signs, signed, leg_offset, origin, table_bounds, FBox_make, FVector_div,
    FVector_neg, vadd, zero_vector, fadd, fsub, fmul, fdiv, fneg, flit, FloatOps_Q, Qdiv;
  cbn -[Qeq Qplus Qminus Qmult Qopp Qlt Qle];
  change (/ 2) with (1 # 2) in *.

(** Each corner at offset [O] is the corner at the origin moved by [O]. *)
Lemma corner_translate (S O : FVector Q) (c : Corner) :
  veq (corner S O c) (vadd (corner S zero_vector c) O).
Proof. unfold veq. destruct c; lin_unfold; split_and!; ring. Qed.

Lemma GenerateCube_translate_at (S O : FVector Q) V T b b0 :
  GenerateCube S O (mkBuffers V T) = inr (tt, b) ->
  GenerateCube S zero_vector (mkBuffers V T) = inr (tt, b0) ->
  InTriangles b = InTriangles b0 /\ map Color (InVertices b) = map Color (InVertices b0) /\
  drop 24 (InVertices b) = drop 24 (InVertices b0) /\
  forall i, (i < 24)%nat -> exists v v0,
    InVertices b !! i = Some v /\ InVertices b0 !! i = Some v0 /\
    veq (Position v) (vadd (Position v0) O) /\
    UV0 v = UV0 v0 /\ Normal v = Normal v0 /\ Tangent v = Tangent v0.
Proof.
  intros Hb Hb0.
  destruct (GenerateCube_result _ _ _ _ _ Hb) as [[HV _] Eb].
  destruct (GenerateCube_result _ _ _ _ _ Hb0) as [_ Eb0].
  split_and!.
  - by rewrite Eb, Eb0.
  - by rewrite Eb, Eb0; cbn [InVertices]; rewrite !map_Color_write_attrs.
  - rewrite Eb, Eb0; cbn [InVertices].
    destruct (write_attrs_0_split (box_attrs S O) V) as [_ A]; [by rewrite length_box_attrs |].
    destruct (write_attrs_0_split (box_attrs S zero_vector) V) as [_ A0];
      [by rewrite length_box_attrs |].
    rewrite length_box_attrs in A, A0. by rewrite A, A0.
  - intros i Hi.
    destruct (GenerateCube_vertex_at _ _ _ _ _ i Hb Hi) as (v & Hv & Hp & Hu & Hn & Ht).
    destruct (GenerateCube_vertex_at _ _ _ _ _ i Hb0 Hi) as (v0 & Hv0 & Hp0 & Hu0 & Hn0 & Ht0).
    exists v, v0. split_and!; try congruence.
    rewrite Hp, Hp0. apply corner_translate.
Qed.

(** C38. Moving the box moves only the positions: [GenerateCube] at offset
    [O] writes the same indices, UVs, normals and tangents as at the
    origin, keeps the same colours and cells past the box, and puts
    every one of the 24 positions at the origin's position plus [O]. *)
Theorem GenerateCube_translation (S O : FVector Q) V T b b0 :
  GenerateCube S O (mkBuffers V T) = inr (tt, b) ->
  GenerateCube S zero_vector (mkBuffers V T) = inr (tt, b0) ->
  InTriangles b = InTriangles b0 /\ map Color (InVertices b) = map Color (InVertices b0) /\
  drop 24 (InVertices b) = drop 24 (InVertices b0) /\
  forall i, (i < 24)%nat -> exists v v0,
    InVertices b !! i = Some v /\ InVertices b0 !! i = Some v0 /\
    veq (Position v) (vadd (Position v0) O) /\
    UV0 v = UV0 v0 /\ Normal v = Normal v0 /\ Tangent v = Tangent v0.
Proof. apply GenerateCube_translate_at. Qed.

(** C31. A leg's top face (its corner [P3], at [+LegSize.Z/2]) meets the
    tabletop's bottom face (the tabletop's [P0], at [-Size.Z/2]) exactly
    when [LegSize.Z = 9 * Size.Z + 5]: the drop [Size.Z * 5 + 2.5]
    fits one leg height per tabletop height. *)
Theorem leg_top_flush_iff (S L : FVector Q) (negX negY : bool) :
  vZ (corner L (leg_offset S negX negY) P3) == vZ (corner S origin P0) <->
  vZ L == 9 * vZ S + 5.
Proof. lin_unfold. split; intros; lra. Qed.

(** C32. The first leg's outer faces stay within the tabletop's footprint
    exactly when the leg is at most 5 wide: the inset is 2.5. *)
Theorem leg_within_footprint_iff (S L : FVector Q) :
  (vX (corner L (leg_offset S false false) P0) <= vX (corner S origin P0) <-> vX L <= 5) /\
  (vY (corner L (leg_offset S false false) P0) <= vY (corner S origin P0) <-> vY L <= 5).
Proof. lin_unfold. split; split; intros; lra. Qed.

Lemma leg_corner_below_bounds (S L : FVector Q) (negX negY : bool) :
  0 <= vZ S -> 0 <= vZ L ->
  vZ (corner L (leg_offset S negX negY) P0) < vZ (BoxMin (table_bounds S)).
Proof. intros. lin_unfold. lra. Qed.

(** Vertex [k] of a part's section sits at the [k mod 4]-th corner of
    face [k / 4] of the part's box. *)
Lemma part_section_vertex (V : list (FRuntimeMeshVertexSimple Q)) bb s o k :
  length V = 24%nat -> (k < 24)%nat ->
  exists v, SecVertices (part_section V bb s o) !! k = Some v /\
    Position v = corner s o (face_corner (face_of_vertex k) (k mod 4)).
Proof.
  intros HV Hk. destruct (write_attrs_0_split (box_attrs s o) V) as [HA _];
    [by rewrite length_box_attrs, HV |].
  rewrite length_box_attrs in HA.
  destruct (lookup_take_attrs 24 _ _ k HA) as (v & Hv & Ha);
    [lia | rewrite length_write_attrs, HV; lia |].
  rewrite box_attrs_lookup in Ha by lia. injection Ha as Hp _ _ _.
  exists v. split; [exact Hv | symmetry; exact Hp].
Qed.

Lemma length_part_section V bb s o :
  length V = 24%nat -> length (SecVertices (part_section (R := Q) V bb s o)) = 24%nat.
Proof. intros HV. cbn [part_section SecVertices]. by rewrite length_write_attrs. Qed.

(** A point inside an axis-aligned box, bounds included. *)
Definition box_contains (b : FBox Q) (p : FVector Q) : Prop :=
  vX (BoxMin b) <= vX p <= vX (BoxMax b) /\ vY (BoxMin b) <= vY p <= vY (BoxMax b) /\
  vZ (BoxMin b) <= vZ p <= vZ (BoxMax b).

Lemma corner_in_table_bounds (S : FVector Q) (c : Corner) :
  0 <= vX S -> 0 <= vY S -> 0 <= vZ S -> box_contains (table_bounds S) (corner S origin c).
Proof. intros. unfold box_contains. destruct c; lin_unfold; split_and!; lra. Qed.

(** The tabletop's corners [P5] (all signs negative) and [P3] (all
    positive) are the two ends of the bounding box. *)
Lemma table_bounds_corners (S : FVector Q) :
  veq (corner S origin P5) (BoxMin (table_bounds S)) /\
  veq (corner S origin P3) (BoxMax (table_bounds S)).
Proof. unfold veq. lin_unfold. split_and!; lra. Qed.

Section WithLaws.
Context {Mat C : Type} `{RuntimeMeshComponent Q Mat C} `{!RuntimeMeshLaws Q Mat C}.

(** C13. After [GenerateMesh], each of the four leg sections has a vertex
    below the bounding box it was created with: the bounds passed for
    the legs are the tabletop's, which do not contain them. *)
Theorem leg_sections_exceed_bounds junkV junkT (a a' : ATableActor Q Mat C) (i : Z) :
  buffers_inv a -> GenerateMesh junkV junkT a = inr (tt, a') ->
  0 <= vZ (Size a) -> 0 <= vZ (LegSize a) -> (1 <= i <= 4)%Z ->
  exists sec v, GetSection (MeshComponent a') i = Some sec /\
    SecVertices sec !! 0%nat = Some v /\ vZ (Position v) < vZ (BoxMin (SecBounds sec)).
Proof.
  intros Hinv Hg HS HL Hi.
  destruct (GenerateMesh_section_contents _ _ _ _ Hinv Hg) as [Hin _]. cbv zeta in Hin.
  assert (HV : length (fst (buffers_before junkV junkT a)) = 24%nat).
  { unfold buffers_before. destruct Hinv as [[-> [-> _]] | [-> [? _]]]; done. }
  assert (exists nx ny, In (i, LegSize a, leg_offset (Size a) nx ny)
                           (table_parts (Size a) (LegSize a))) as (nx & ny & Hp).
  { assert (i = 1 \/ i = 2 \/ i = 3 \/ i = 4)%Z as [-> | [-> | [-> | ->]]] by lia;
      [exists false, false | exists true, false | exists false, true | exists true, true];
      simpl; repeat (first [left; reflexivity | right]). }
  destruct (part_section_vertex _ (table_bounds (Size a)) (LegSize a)
              (leg_offset (Size a) nx ny) 0 HV) as (v & Hv & Hpos); [lia |].
  eexists _, v. split_and!; [apply Hin, Hp | exact Hv |].
  rewrite Hpos. by apply leg_corner_below_bounds.
Qed.
Lemma tabletop_section_in_bounds junkV junkT (a a' : ATableActor Q Mat C) :
  buffers_inv a -> GenerateMesh junkV junkT a = inr (tt, a') ->
  0 <= vX (Size a) -> 0 <= vY (Size a) -> 0 <= vZ (Size a) ->
  exists sec, GetSection (MeshComponent a') 0%Z = Some sec /\
    Forall (fun v => box_contains (SecBounds sec) (Position v)) (SecVertices sec) /\
    (exists v, v ∈ SecVertices sec /\ veq (Position v) (BoxMin (SecBounds sec))) /\
    (exists v, v ∈ SecVertices sec /\ veq (Position v) (BoxMax (SecBounds sec))).
Proof.
  intros Hinv Hg Hx Hy Hz.
  destruct (GenerateMesh_section_contents _ _ _ _ Hinv Hg) as [Hin _]. cbv zeta in Hin.
  assert (HV : length (fst (buffers_before junkV junkT a)) = 24%nat).
  { unfold buffers_before. destruct Hinv as [[-> [-> _]] | [-> [? _]]]; done. }
  eexists. split; [apply Hin; left; reflexivity |]. split_and!.
  - apply Forall_lookup_2. intros k v Hk.
    assert (Hk24 : (k < 24)%nat).
    { apply lookup_lt_Some in Hk. by rewrite length_part_section in Hk. }
    destruct (part_section_vertex _ (table_bounds (Size a)) (Size a) origin k HV Hk24)
      as (v' & Hv' & Hp).
    rewrite Hk in Hv'. injection Hv' as <-. rewrite Hp. by apply corner_in_table_bounds.
  - destruct (part_section_vertex _ (table_bounds (Size a)) (Size a) origin 4 HV)
      as (v & Hv & Hp); [lia |].
    exists v. split; [by eapply list_elem_of_lookup_2 |].
    rewrite Hp. exact (proj1 (table_bounds_corners (Size a))).
  - destruct (part_section_vertex _ (table_bounds (Size a)) (Size a) origin 3 HV)
      as (v & Hv & Hp); [lia |].
    exists v. split; [by eapply list_elem_of_lookup_2 |].
    rewrite Hp. exact (proj2 (table_bounds_corners (Size a))).
Qed.

(** C37. The bounding box [GenerateMesh] gives the tabletop's section is
    the tightest box around it: every tabletop vertex lies inside, and
    its two ends are vertices of the section (the corners [P5] and
    [P3]), for any table of non-negative size. *)
Theorem tabletop_bounds_tight junkV junkT (a a' : ATableActor Q Mat C) :
  buffers_inv a -> GenerateMesh junkV junkT a = inr (tt, a') ->
  0 <= vX (Size a) -> 0 <= vY (Size a) -> 0 <= vZ (Size a) ->
  exists sec, GetSection (MeshComponent a') 0%Z = Some sec /\
    Forall (fun v => box_contains (SecBounds sec) (Position v)) (SecVertices sec) /\
    (exists v, v ∈ SecVertices sec /\ veq (Position v) (BoxMin (SecBounds sec))) /\
    (exists v, v ∈ SecVertices sec /\ veq (Position v) (BoxMax (SecBounds sec))).
Proof. apply tabletop_section_in_bounds. Qed.
End WithLaws.

(** ** Witnesses at concrete inputs *)

Lemma face_winding_positive_witness :
  0 < orientation (corner table_size zero_vector (face_corner Top 0))
        (corner table_size zero_vector (face_corner Top 1))
        (corner table_size zero_vector (face_corner Top 2)) (vec_normal Top) /\
  0 < orientation (corner table_size zero_vector (face_corner Top 0))
        (corner table_size zero_vector (face_corner Top 2))
        (corner table_size zero_vector (face_corner Top 3)) (vec_normal Top).
Proof. apply (face_winding_positive table_size zero_vector Top); reflexivity. Defined.

Lemma leg_sections_exceed_bounds_witness :
  exists sec v,
    GetSection (MeshComponent (after_GenerateMesh junk_vertex junk_index table_actor)) 3%Z
      = Some sec /\
    SecVertices sec !! 0%nat = Some v /\ vZ (Position v) < vZ (BoxMin (SecBounds sec)).
Proof.
  apply (leg_sections_exceed_bounds junk_vertex junk_index table_actor _ 3%Z table_actor_inv
           table_mesh_run); [discriminate | discriminate | lia].
Defined.

Lemma tabletop_bounds_tight_witness :
  exists sec, GetSection (MeshComponent (after_GenerateMesh junk_vertex junk_index table_actor)) 0%Z
                = Some sec /\
    Forall (fun v => box_contains (SecBounds sec) (Position v)) (SecVertices sec) /\
    (exists v, v ∈ SecVertices sec /\ veq (Position v) (BoxMin (SecBounds sec))) /\
    (exists v, v ∈ SecVertices sec /\ veq (Position v) (BoxMax (SecBounds sec))).
Proof.
  apply (tabletop_bounds_tight junk_vertex junk_index table_actor _ table_actor_inv
           table_mesh_run); discriminate.
Defined.

Lemma GenerateCube_translation_witness :
  let O := mkFVector 3 (-7) 10 in
  let b0 := mkBuffers (write_attrs 0 (box_attrs table_size zero_vector) (buf_vertices 24))
                      (list_inserts 0 box_indices (buf_indices 36)) in
  let b := mkBuffers (write_attrs 0 (box_attrs table_size O) (buf_vertices 24))
                     (list_inserts 0 box_indices (buf_indices 36)) in
  exists v v0, InVertices b !! 6%nat = Some v /\ InVertices b0 !! 6%nat = Some v0 /\
    veq (Position v) (vadd (Position v0) O) /\
    UV0 v = UV0 v0 /\ Normal v = Normal v0 /\ Tangent v = Tangent v0.
Proof.
  cbv zeta.
  refine (proj2 (proj2 (proj2 (GenerateCube_translation table_size (mkFVector 3 (-7) 10)
            (buf_vertices 24) (buf_indices 36) _ _ _ table_cube_run))) 6%nat _).
  - apply GenerateCube_correct; reflexivity.
  - lia.
Defined.
