(* ===== verification/Rebuild.v ===== *)
(** * Running [GenerateMesh] again

    The editor runs [OnConstruction], and with it [GenerateMesh], after
    every property edit; [BeginPlay] runs it once more.  This file
    relates the results of successive runs and of runs on different
    uninitialised memory, and gives the branch where the allocation
    guard is set but the buffers are short.

    The mesh component is observed only through [GetSection] and
    [GetMaterial]: two components are equivalent ([mesh_equiv]) when
    every observation agrees, its operations respect that equivalence
    (the [Proper] instances, derived from [RuntimeMeshLaws]), and
    [actor_equiv] extends it to the actor, member by member. *)

From S2P Require Import Prelude Vector Quad Cube RuntimeMesh Table Lifecycle.
From Stdlib Require Import QArith_base Morphisms.
Close Scope Q_scope.

Section Rebuild.
Context {R Mat C : Type} `{FloatOps R} `{RuntimeMeshComponent R Mat C}.
Abbreviation Actor := (ATableActor R Mat C).
Abbreviation Vertex := (FRuntimeMeshVertexSimple R).

(** ** Observational equivalence of components and actors *)

Definition mesh_equiv (c1 c2 : C) : Prop :=
  (forall i, GetSection c1 i = GetSection c2 i) /\
  (forall i, GetMaterial c1 i = GetMaterial c2 i).

Definition actor_equiv (a b : Actor) : Prop :=
  Size a = Size b /\ LegSize a = LegSize b /\ Material a = Material b /\
  bHaveBuffersBeenInitialized a = bHaveBuffersBeenInitialized b /\
  Vertices a = Vertices b /\ Triangles a = Triangles b /\
  offsetDiffX a = offsetDiffX b /\ offsetDiffY a = offsetDiffY b /\
  offsetDiffZ a = offsetDiffZ b /\
  mesh_equiv (MeshComponent a) (MeshComponent b) /\
  Scene a = Scene b.

#[export] Instance mesh_equiv_Equivalence : Equivalence mesh_equiv.
Proof.
  split.
  - done.
  - intros c1 c2 [HS HM]. split; intros i; [by rewrite HS | by rewrite HM].
  - intros c1 c2 c3 [HS HM] [HS' HM']. split; intros i; [by rewrite HS, HS' | by rewrite HM, HM'].
Qed.

#[export] Instance actor_equiv_Equivalence : Equivalence actor_equiv.
Proof.
  split.
  - intros a. unfold actor_equiv. split_and!; done.
  - intros a b Hab. unfold actor_equiv in *. destruct_and! Hab. split_and!; by symmetry.
  - intros a b c Hab Hbc. unfold actor_equiv in *. destruct_and! Hab. destruct_and! Hbc.
    split_and!; by etrans.
Qed.

Section WithLaws.
Context `{!RuntimeMeshLaws R Mat C}.

#[export] Instance ClearAllMeshSections_Proper :
  Proper (mesh_equiv ==> mesh_equiv) ClearAllMeshSections.
Proof.
  intros c1 c2 [HS HM]. split; intros i; by rewrite ?GetSection_Clear, ?GetMaterial_Clear.
Qed.

#[export] Instance CreateMeshSection_Proper :
  Proper (eq ==> eq ==> mesh_equiv ==> mesh_equiv) CreateMeshSection.
Proof.
  intros i ? <- s ? <- c1 c2 [HS HM]. split; intros j; [| by rewrite !GetMaterial_Create].
  destruct (decide (i = j)) as [<- | Hne].
  - by rewrite !GetSection_Create_eq.
  - by rewrite !GetSection_Create_ne.
Qed.

#[export] Instance SetMaterial_Proper :
  Proper (eq ==> eq ==> mesh_equiv ==> mesh_equiv) SetMaterial.
Proof.
  intros i ? <- m ? <- c1 c2 [HS HM]. split; intros j; [by rewrite !GetSection_SetMaterial |].
  destruct (decide (i = j)) as [<- | Hne].
  - by rewrite !GetMaterial_Set_eq.
  - by rewrite !GetMaterial_Set_ne.
Qed.

#[export] Instance generated_mesh_Proper V bb m parts :
  Proper (mesh_equiv ==> mesh_equiv) (generated_mesh V bb m parts).
Proof.
  intros c1 c2 Hc. unfold generated_mesh.
  assert (Hd : mesh_equiv (ClearAllMeshSections c1) (ClearAllMeshSections c2)) by by rewrite Hc.
  revert Hd. generalize (ClearAllMeshSections c1) (ClearAllMeshSections c2). clear c1 c2 Hc.
  induction parts as [|[[i s] o] parts IH]; intros d1 d2 Hd; simpl; [done |].
  apply IH. by rewrite Hd.
Qed.

(** The actor [GenerateMesh] leaves depends on the component only
    through its observations. *)
#[export] Instance after_GenerateMesh_Proper junkV junkT :
  Proper (actor_equiv ==> actor_equiv) (@after_GenerateMesh R Mat C _ _ junkV junkT).
Proof.
  intros a b (HS & HL & HM & HF & HV & HT & _ & _ & _ & Hc & HB).
  unfold after_GenerateMesh, buffers_before. rewrite HS, HL, HM, HF, HV, HT, HB.
  destruct (bHaveBuffersBeenInitialized b); unfold actor_equiv; cbn -[generated_mesh];
    split_and!; try reflexivity; by rewrite Hc.
Qed.

End WithLaws.

(** ** Helper lemmas *)

Lemma length_buffers_before junkV junkT (a : Actor) :
  buffers_inv a -> length (fst (buffers_before junkV junkT a)) = 24%nat.
Proof.
  unfold buffers_before. intros [[-> [-> ->]] | [-> [HV HT]]]; [done | exact HV].
Qed.

Lemma part_section_overwrite (V : list Vertex) bb s o s' o' :
  length V = 24%nat ->
  part_section (write_attrs 0 (box_attrs s' o') V) bb s o = part_section V bb s o.
Proof.
  intros HV. unfold part_section.
  rewrite write_attrs_0_overwrite by (rewrite ?length_box_attrs; lia). done.
Qed.

Lemma map_attrs_of_write_attrs_full attrs (l : list Vertex) :
  length attrs = length l -> map attrs_of (write_attrs 0 attrs l) = attrs.
Proof.
  intros Hl. destruct (write_attrs_0_split attrs l) as [A _]; [lia |].
  by rewrite take_ge in A by (rewrite length_write_attrs; lia).
Qed.

Lemma buffers_before_after junkV junkT junkV' junkT' (a : Actor) :
  buffers_before junkV' junkT' (after_GenerateMesh junkV junkT a) =
  (Vertices (after_GenerateMesh junkV junkT a), Triangles (after_GenerateMesh junkV junkT a)).
Proof.
  unfold buffers_before at 1. unfold after_GenerateMesh.
  destruct (buffers_before junkV junkT a). reflexivity.
Qed.

Lemma after_GenerateMesh_unfold junkV junkT (a : Actor) :
  after_GenerateMesh junkV junkT a =
  let V := fst (buffers_before junkV junkT a) in
  let S := Size a in
  mkActor S (LegSize a) (Material a) true
    (write_attrs 0 (box_attrs (LegSize a) (leg_offset S true true)) V) box_indices
    (fsub (fdiv (vX S) (flit 2)) (flit (5 # 2))) (fsub (fdiv (vY S) (flit 2)) (flit (5 # 2)))
    (fadd (fmul (vZ S) (flit 5)) (flit (5 # 2)))
    (generated_mesh V (table_bounds S) (Material a) (table_parts S (LegSize a)) (MeshComponent a))
    (Scene a).
Proof. unfold after_GenerateMesh. by destruct (buffers_before junkV junkT a). Qed.

(** ** The guard set on short buffers *)

(** C19. When [bHaveBuffersBeenInitialized] is set but a member array is
    shorter than one box, [GenerateMesh] skips the allocation and the
    tabletop's [GenerateCube] stops at the first out-of-range write,
    before the component is touched. *)
Theorem GenerateMesh_fault junkV junkT (a : Actor) :
  bHaveBuffersBeenInitialized a = true ->
  (length (Vertices a) < 24 \/ length (Triangles a) < 36)%nat ->
  GenerateMesh junkV junkT a = inl (cube_fault (length (Vertices a)) (length (Triangles a))).
Proof.
  intros Hf Hl. unfold GenerateMesh. rewrite mbind_mget. cbv beta.
  erewrite mbind_inr by apply setup_after_spec.
  unfold setup_after. rewrite Hf, mbind_mget. cbv beta zeta.
  apply mbind_inl. unfold on_buffers. by rewrite GenerateCube_fault_at.
Qed.

Section WithLaws.
Context `{!RuntimeMeshLaws R Mat C}.

Lemma after_GenerateMesh_twice junkV junkT junkV' junkT' (a : Actor) :
  buffers_inv a ->
  actor_equiv (after_GenerateMesh junkV' junkT' (after_GenerateMesh junkV junkT a))
              (after_GenerateMesh junkV junkT a).
Proof.
  intros Hinv. pose proof (length_buffers_before junkV junkT a Hinv) as HV.
  rewrite !after_GenerateMesh_unfold. cbv zeta.
  cbn [buffers_before bHaveBuffersBeenInitialized Vertices Triangles fst Size LegSize Material
       MeshComponent Scene].
  unfold actor_equiv. cbn [Size LegSize Material bHaveBuffersBeenInitialized Vertices Triangles
       offsetDiffX offsetDiffY offsetDiffZ MeshComponent Scene].
  split_and!; try reflexivity.
  - apply write_attrs_0_overwrite; rewrite ?length_box_attrs; lia.
  - split; intros i.
    + rewrite !GetSection_generated_mesh, !part_section_overwrite by done. reflexivity.
    + rewrite !GetMaterial_generated_mesh. by repeat case_decide.
Qed.

(** C27. Running [GenerateMesh] again on the actor a run has just produced
    (another [OnConstruction], or [BeginPlay] after construction)
    changes nothing observable, whatever the uninitialised memory of
    either run: the same members, and a component with the same
    sections and materials. *)
Theorem GenerateMesh_rerun_stable junkV junkT junkV' junkT' (a a1 a2 : Actor) :
  buffers_inv a -> GenerateMesh junkV junkT a = inr (tt, a1) ->
  GenerateMesh junkV' junkT' a1 = inr (tt, a2) -> actor_equiv a2 a1.
Proof.
  intros Hinv Hg Hg'. rewrite GenerateMesh_correct in Hg by done.
  apply inr_snd_inj in Hg. subst a1.
  rewrite GenerateMesh_correct in Hg' by (by apply buffers_inv_after).
  apply inr_snd_inj in Hg'. subst a2. by apply after_GenerateMesh_twice.
Qed.

(** C16. Uninitialised memory reaches the renderer only through the vertex
    colours: two runs from the same state on different uninitialised
    memory give, at every section index, sections with the same
    vertex positions, UVs, normals and tangents, the same indices,
    bounds, collision flag and update frequency. *)
Theorem GenerateMesh_junk_only_colors junkV junkT junkV' junkT' (a a1 a1' : Actor) i s s' :
  buffers_inv a ->
  GenerateMesh junkV junkT a = inr (tt, a1) -> GenerateMesh junkV' junkT' a = inr (tt, a1') ->
  GetSection (MeshComponent a1) i = Some s -> GetSection (MeshComponent a1') i = Some s' ->
  map attrs_of (SecVertices s) = map attrs_of (SecVertices s') /\
  SecTriangles s = SecTriangles s' /\ SecBounds s = SecBounds s' /\
  SecCollision s = SecCollision s' /\ SecFrequency s = SecFrequency s'.
Proof.
  intros Hinv Hg Hg' Hs Hs'.
  rewrite GenerateMesh_correct in Hg, Hg' by done. apply inr_snd_inj in Hg, Hg'. subst a1 a1'.
  pose proof (length_buffers_before junkV junkT a Hinv) as HV.
  pose proof (length_buffers_before junkV' junkT' a Hinv) as HV'.
  rewrite !after_GenerateMesh_unfold in Hs, Hs'. cbv zeta in Hs, Hs'. cbn [MeshComponent] in Hs, Hs'.
  rewrite GetSection_generated_mesh in Hs, Hs'.
  repeat case_decide; simplify_eq; unfold part_section;
    cbn [SecVertices SecTriangles SecBounds SecCollision SecFrequency]; split_and!; try done;
    rewrite !map_attrs_of_write_attrs_full by (rewrite length_box_attrs; lia); done.
Qed.
End WithLaws.

End Rebuild.

(** ** Witnesses at concrete inputs *)

(** Uninitialised memory that reads as white vertices. *)
Definition junk_vertex_white (_ : nat) : FRuntimeMeshVertexSimple Q :=
  mkVertex zero_vector (PackNormal zero_vector) (PackNormal zero_vector)
    (mkFColor 255 255 255 255) (mkFVector2D 0%Q 0%Q).

Lemma GenerateMesh_fault_witness :
  GenerateMesh junk_vertex junk_index (set_initialized true table_actor) = inl (cube_fault 0 0).
Proof.
  apply (GenerateMesh_fault junk_vertex junk_index (set_initialized true table_actor));
    [reflexivity | simpl; lia].
Defined.

Lemma GenerateMesh_rerun_stable_witness :
  actor_equiv (after_GenerateMesh junk_vertex_white junk_index
                 (after_GenerateMesh junk_vertex junk_index table_actor))
              (after_GenerateMesh junk_vertex junk_index table_actor).
Proof.
  apply (GenerateMesh_rerun_stable junk_vertex junk_index junk_vertex_white junk_index table_actor).
  - left. split_and!; reflexivity.
  - apply GenerateMesh_correct. left. split_and!; reflexivity.
  - apply GenerateMesh_correct. right. split_and!; vm_compute; reflexivity.
Defined.

Lemma GenerateMesh_junk_only_colors_witness :
  map attrs_of (SecVertices (part_section (fst (buffers_before junk_vertex junk_index table_actor))
                               (table_bounds table_size) table_size origin)) =
  map attrs_of (SecVertices (part_section (fst (buffers_before junk_vertex_white junk_index table_actor))
                               (table_bounds table_size) table_size origin)) /\
  SecTriangles (part_section (fst (buffers_before junk_vertex junk_index table_actor))
                  (table_bounds table_size) table_size origin) =
  SecTriangles (part_section (fst (buffers_before junk_vertex_white junk_index table_actor))
                  (table_bounds table_size) table_size origin) /\
  SecBounds (part_section (fst (buffers_before junk_vertex junk_index table_actor))
               (table_bounds table_size) table_size origin) =
  SecBounds (part_section (fst (buffers_before junk_vertex_white junk_index table_actor))
               (table_bounds table_size) table_size origin) /\
  SecCollision (part_section (fst (buffers_before junk_vertex junk_index table_actor))
                  (table_bounds table_size) table_size origin) =
  SecCollision (part_section (fst (buffers_before junk_vertex_white junk_index table_actor))
                  (table_bounds table_size) table_size origin) /\
  SecFrequency (part_section (fst (buffers_before junk_vertex junk_index table_actor))
                  (table_bounds table_size) table_size origin) =
  SecFrequency (part_section (fst (buffers_before junk_vertex_white junk_index table_actor))
                  (table_bounds table_size) table_size origin).
Proof.
  apply (GenerateMesh_junk_only_colors junk_vertex junk_index junk_vertex_white junk_index
           table_actor (after_GenerateMesh junk_vertex junk_index table_actor)
           (after_GenerateMesh junk_vertex_white junk_index table_actor) 0%Z).
  - left. split_and!; reflexivity.
  - apply GenerateMesh_correct. left. split_and!; reflexivity.
  - apply GenerateMesh_correct. left. split_and!; reflexivity.
  - vm_compute. reflexivity.
  - vm_compute. reflexivity.
Defined.

