(* ===== verification/Sections.v ===== *)
(** * Well-formed mesh sections

    What a renderer needs of the index buffer of a mesh section: the
    indices come in whole triangles, every index names a vertex of the
    section, and no triangle repeats a vertex (a degenerate triangle
    draws nothing).  [section_wf] states it, with a [Decision] instance
    so that a concrete section is checked by evaluation; [mesh_wf] asks
    it of every section a component holds.

    The theorems: every section [GenerateMesh] creates is well formed,
    and every state the engine can reach holds well-formed sections
    only; and each section, read back with the reader of [Readback],
    is the face table of its part of the table. *)

From S2P Require Import Prelude Vector Quad Cube Readback RuntimeMesh Table Lifecycle Rebuild.
From Stdlib Require Import QArith_base.
Close Scope Q_scope.

(** The index buffer read as triangles, if its length is a multiple of
    three. *)
Fixpoint triangles_of (l : list Z) : option (list (Z * Z * Z)) :=
  match l with
  | [] => Some []
  | a :: b :: c :: r => ts ← triangles_of r; Some ((a, b, c) :: ts)
  | _ => None
  end.

(** A triangle over [n] vertices: three distinct indices in [0, n). *)
Definition triangle_ok (n : Z) (t : Z * Z * Z) : Prop :=
  let '(a, b, c) := t in
  (0 <= a < n /\ 0 <= b < n /\ 0 <= c < n /\ a <> b /\ b <> c /\ a <> c)%Z.

#[export] Instance triangle_ok_dec n t : Decision (triangle_ok n t).
Proof. destruct t as [[a b] c]. unfold triangle_ok. apply _. Defined.

Definition section_wf {R} (s : MeshSection R) : Prop :=
  match triangles_of (SecTriangles s) with
  | Some ts => Forall (triangle_ok (Z.of_nat (length (SecVertices s)))) ts
  | None => False
  end.

#[export] Instance section_wf_dec {R} (s : MeshSection R) : Decision (section_wf s).
Proof. unfold section_wf. destruct (triangles_of _); apply _. Defined.

Section Sections.
Context {R Mat C : Type} `{FloatOps R} `{RuntimeMeshComponent R Mat C}.
Abbreviation Actor := (ATableActor R Mat C).
Abbreviation Vertex := (FRuntimeMeshVertexSimple R).

(** Every section a component holds is well formed. *)
Definition mesh_wf (c : C) : Prop :=
  forall i s, GetSection c i = Some s -> section_wf s.

(** The box's 36 indices over 24 vertices are well formed. *)
Lemma box_section_wf (V : list Vertex) bb s o :
  length V = 24%nat -> section_wf (part_section V bb s o).
Proof.
  intros HV. unfold section_wf, part_section. cbn [SecTriangles SecVertices].
  rewrite length_write_attrs, HV. apply (bool_decide_unpack _). vm_compute. reflexivity.
Qed.

Section WithLaws.
Context `{!RuntimeMeshLaws R Mat C}.

Lemma generated_mesh_wf V bb m S L c :
  length V = 24%nat -> mesh_wf (generated_mesh V bb m (table_parts S L) c).
Proof.
  intros HV i s Hs. rewrite GetSection_generated_mesh in Hs.
  repeat case_decide; simplify_eq; by apply box_section_wf.
Qed.

Lemma after_GenerateMesh_wf junkV junkT (a : Actor) :
  buffers_inv a -> mesh_wf (MeshComponent (after_GenerateMesh junkV junkT a)).
Proof.
  intros Hinv. rewrite after_GenerateMesh_unfold. cbv zeta. cbn [MeshComponent].
  by apply generated_mesh_wf, length_buffers_before.
Qed.

(** C29. Every section [GenerateMesh] leaves in the component is well formed:
    whole triangles, indices in range, no degenerate triangle. *)
Theorem GenerateMesh_sections_wf junkV junkT (a a' : Actor) i s :
  buffers_inv a -> GenerateMesh junkV junkT a = inr (tt, a') ->
  GetSection (MeshComponent a') i = Some s -> section_wf s.
Proof.
  intros Hinv Hg. rewrite GenerateMesh_correct in Hg by done.
  apply inr_snd_inj in Hg. subst a'. by apply after_GenerateMesh_wf.
Qed.

Lemma reachable_sections_wf (a : Actor) : reachable a -> mesh_wf (MeshComponent a).
Proof.
  induction 1 as [S L m c0 d Hc0 | a e a' Hr IH Hs].
  - intros i s Hs. cbn in Hs. by rewrite Hc0 in Hs.
  - inversion Hs as [jv jt ? ? Hg | jv jt ? ? Hg | ]; subst; [| | exact IH];
      rewrite GenerateMesh_correct in Hg by (by apply reachable_inv);
      apply inr_snd_inj in Hg; subst; by apply after_GenerateMesh_wf, reachable_inv.
Qed.

(** C7. Type invariant of the life cycle: in every reachable state the
    component holds well-formed sections only (none before the first
    [GenerateMesh], the five boxes after). *)
Theorem reachable_mesh_wf (a : Actor) : reachable a -> mesh_wf (MeshComponent a).
Proof. apply reachable_sections_wf. Qed.

(** C9. Composition of the whole pipeline: after [GenerateMesh], section [i]
    of each part [(i, size, offset)] of the table exists, and its
    buffers decode to the face table of a box of that size at that
    offset. *)
Theorem GenerateMesh_sections_decode `{EqDecision R} junkV junkT (a a' : Actor) i sz o :
  buffers_inv a -> GenerateMesh junkV junkT a = inr (tt, a') ->
  In (i, sz, o) (table_parts (Size a) (LegSize a)) ->
  exists s, GetSection (MeshComponent a') i = Some s /\
    read_box (map attrs_of (SecVertices s)) (SecTriangles s) = Some (map (face_args sz o) faces).
Proof.
  intros Hinv Hg Hin. eexists. split.
  - exact (proj1 (GenerateMesh_section_contents junkV junkT a a' Hinv Hg) i sz o Hin).
  - cbn [part_section SecVertices SecTriangles].
    rewrite map_attrs_of_write_attrs_full
      by (rewrite length_box_attrs; symmetry; by apply length_buffers_before).
    apply read_box_box.
Qed.
End WithLaws.
End Sections.

(** ** Witnesses at concrete inputs *)

Lemma GenerateMesh_sections_wf_witness :
  section_wf (part_section (fst (buffers_before junk_vertex junk_index table_actor))
                (table_bounds table_size) leg_size (leg_offset table_size true false)).
Proof.
  apply (GenerateMesh_sections_wf junk_vertex junk_index table_actor
           (after_GenerateMesh junk_vertex junk_index table_actor) 2%Z).
  - left. split_and!; reflexivity.
  - apply GenerateMesh_correct. left. split_and!; reflexivity.
  - vm_compute. reflexivity.
Defined.

Lemma reachable_mesh_wf_witness :
  mesh_wf (MeshComponent (after_GenerateMesh junk_vertex junk_index table_actor)).
Proof.
  apply reachable_mesh_wf.
  apply (reachable_step table_actor EvBeginPlay); [constructor; reflexivity |].
  apply (step_BeginPlay junk_vertex junk_index).
  apply GenerateMesh_correct. left. split_and!; reflexivity.
Defined.

Lemma GenerateMesh_sections_decode_witness :
  exists s, GetSection (MeshComponent (after_GenerateMesh junk_vertex junk_index table_actor)) 3%Z
              = Some s /\
    read_box (map attrs_of (SecVertices s)) (SecTriangles s) =
    Some (map (face_args leg_size (leg_offset table_size false true)) faces).
Proof.
  apply (GenerateMesh_sections_decode junk_vertex junk_index table_actor
           (after_GenerateMesh junk_vertex junk_index table_actor)).
  - left. split_and!; reflexivity.
  - apply GenerateMesh_correct. left. split_and!; reflexivity.
  - simpl. right; right; right; left. reflexivity.
Defined.
