(* ===== verification/Session.v ===== *)
(** * Editor and play sessions: sequences of engine events

    [run_events] executes a list of engine events on the actor, one
    after the other, as the engine delivers them: [OnConstruction] and
    [BeginPlay] run [GenerateMesh], a property edit changes [Size],
    [LegSize] and [Material].  It stops at the first fault.  The
    theorems relate it to the step relation of [Lifecycle] and show
    that a session of any length, from any reachable state, runs to its
    end without a fault and leaves well-formed sections only. *)

From S2P Require Import Prelude Vector Quad Cube RuntimeMesh Table Lifecycle Rebuild Sections.
From Stdlib Require Import QArith_base.
Close Scope Q_scope.

Section Session.
Context {R Mat C : Type} `{FloatOps R} `{RuntimeMeshComponent R Mat C}.
Abbreviation Actor := (ATableActor R Mat C).
Abbreviation Vertex := (FRuntimeMeshVertexSimple R).
Variables (junkV : nat -> Vertex) (junkT : nat -> Z).

(** One event, with the uninitialised memory [junkV], [junkT] for the
    allocation it may do. *)
Definition run_event (a : Actor) (e : ActorEvent) : Fault + Actor :=
  match e with
  | EvOnConstruction | EvBeginPlay =>
      match GenerateMesh junkV junkT a with
      | inl f => inl f
      | inr (_, a') => inr a'
      end
  | EvEditProperties Sz L m => inr (set_props Sz L m a)
  end.

Fixpoint run_events (a : Actor) (es : list ActorEvent) : Fault + Actor :=
  match es with
  | [] => inr a
  | e :: es' =>
      match run_event a e with
      | inl f => inl f
      | inr a' => run_events a' es'
      end
  end.

Lemma run_event_step a e a' : run_event a e = inr a' -> step a e a'.
Proof.
  destruct e; unfold run_event; try (intros [= <-]; constructor).
  all: destruct (GenerateMesh junkV junkT a) as [f | [[] a'']] eqn:E; intros [= <-].
  - by apply (step_OnConstruction junkV junkT).
  - by apply (step_BeginPlay junkV junkT).
Qed.

Lemma run_events_reachable a es a' :
  reachable a -> run_events a es = inr a' -> reachable a'.
Proof.
  revert a. induction es as [|e es IH]; intros a Hr; cbn; [by intros [= <-] |].
  destruct (run_event a e) as [f | a1] eqn:E; [discriminate |].
  apply IH. eapply reachable_step; [exact Hr | by apply run_event_step].
Qed.

Lemma run_event_reachable_ok a e :
  reachable a -> exists a', run_event a e = inr a'.
Proof.
  intros Hr. destruct e; unfold run_event; [| | by eexists];
    rewrite GenerateMesh_correct by (by apply reachable_inv); by eexists.
Qed.

Section WithLaws.
Context `{!RuntimeMeshLaws R Mat C}.

(** C8. A session of any length, from any reachable state, runs to its end
    without a fault; the state it ends in is reachable and its
    component holds well-formed sections only. *)
Theorem run_events_complete a es :
  reachable a ->
  exists a', run_events a es = inr a' /\ reachable a' /\ mesh_wf (MeshComponent a').
Proof.
  revert a. induction es as [|e es IH]; intros a Hr; cbn.
  - exists a. split_and!; [done | done | by apply reachable_sections_wf].
  - destruct (run_event_reachable_ok a e Hr) as [a1 E]. rewrite E.
    apply IH. eapply reachable_step; [exact Hr | by apply run_event_step].
Qed.
End WithLaws.
End Session.

(** ** Witnesses at concrete inputs *)

(** An editor session: construction, an edit to a 120 x 80 x 40 top on
    5 x 5 x 365 legs, construction again, then play. *)
Definition editor_session : list (ActorEvent (R := Q) (Mat := nat)) :=
  [EvOnConstruction; EvEditProperties (mkFVector 120%Q 80%Q 40%Q) (mkFVector 5%Q 5%Q 365%Q) 3%nat;
   EvOnConstruction; EvBeginPlay].

Lemma run_events_complete_witness :
  exists a', run_events junk_vertex junk_index table_actor editor_session = inr a' /\
             reachable a' /\ mesh_wf (MeshComponent a').
Proof. apply (run_events_complete junk_vertex junk_index table_actor editor_session). exact table_actor_reachable. Defined.
