(* ===== verification/Scene.v ===== *)
(** * The scene components over the life cycle

    The constructor creates the root scene component and the mesh
    component, clears the mesh component's [bShouldSerializeMeshData]
    and attaches it to the root ([Table.ATableActor_ctor]).  Nothing
    else in the source touches them.  [keeps_scene] is the frame
    property of a computation on the actor: on success it leaves
    [Scene] as it found it.  It is closed under the monad's bind, so a
    hint database proves it for [GenerateMesh] from its parts.  With it,
    rule induction on [reachable] shows that in every reachable state
    the mesh component is attached to the root and not serialised, as
    the constructor left it. *)

From S2P Require Import Prelude Vector Quad Cube RuntimeMesh Table Lifecycle.
From Stdlib Require Import QArith_base.
Close Scope Q_scope.

(** What the constructor leaves: the mesh component ["ProceduralMesh"]
    attached to the root ["Root"], with mesh data not serialised. *)
Definition ctor_scene : SceneSetup :=
  mkScene SubobjectNames.Root SubobjectNames.ProceduralMesh (Some SubobjectNames.Root) false.

Section SceneFrame.
Context {R Mat C : Type} `{FloatOps R} `{RuntimeMeshComponent R Mat C}.
Abbreviation Actor := (ATableActor R Mat C).

(** A computation on the actor that, when it succeeds, leaves [Scene]
    as it was. *)
Definition keeps_scene {A} (m : M Actor A) : Prop :=
  forall a x a', m a = inr (x, a') -> Scene a' = Scene a.

Lemma keeps_scene_ret {A} (x : A) : keeps_scene (mret x).
Proof. by intros a y a' [= _ <-]. Qed.

Lemma keeps_scene_get : keeps_scene mget.
Proof. by intros a y a' [= _ <-]. Qed.

Lemma keeps_scene_modify (f : Actor -> Actor) :
  (forall a, Scene (f a) = Scene a) -> keeps_scene (mmodify f).
Proof. intros Hf a y a' [= _ <-]. apply Hf. Qed.

Lemma keeps_scene_bind {A B} (m : M Actor A) (k : A -> M Actor B) :
  keeps_scene m -> (forall x, keeps_scene (k x)) -> keeps_scene (mbind m k).
Proof.
  intros Hm Hk a y a'. unfold mbind.
  destruct (m a) as [f | [x a1]] eqn:E; [discriminate |].
  intros Hr. rewrite (Hk x a1 y a' Hr). exact (Hm a x a1 E).
Qed.

Lemma keeps_scene_if (b : bool) {A} (m1 m2 : M Actor A) :
  keeps_scene m1 -> keeps_scene m2 -> keeps_scene (if b then m1 else m2).
Proof. by destruct b. Qed.

Lemma keeps_scene_on_buffers {A} (m : M (MeshBuffers R) A) : keeps_scene (on_buffers m).
Proof.
  intros a y a'. unfold on_buffers.
  destruct (m _) as [f | [x b]]; [discriminate | by intros [= _ <-]].
Qed.

Lemma keeps_scene_on_mesh (f : C -> C) : keeps_scene (on_mesh f).
Proof. apply keeps_scene_modify. reflexivity. Qed.

Create HintDb scene.
#[local] Hint Resolve keeps_scene_ret keeps_scene_get keeps_scene_bind keeps_scene_if
  keeps_scene_on_buffers keeps_scene_on_mesh : scene.
#[local] Hint Extern 1 (keeps_scene (mmodify _)) =>
  apply keeps_scene_modify; intros; reflexivity : scene.
#[local] Hint Extern 2 (keeps_scene (let _ := _ in _)) => cbv zeta : scene.
#[local] Hint Extern 3 (keeps_scene _) => progress cbv beta : scene.

Lemma keeps_scene_SetupMeshBuffers junkV junkT : keeps_scene (SetupMeshBuffers junkV junkT).
Proof. unfold SetupMeshBuffers. eauto with scene. Qed.

Lemma keeps_scene_CreateSectionFromBuffers i bb : keeps_scene (CreateSectionFromBuffers i bb).
Proof. unfold CreateSectionFromBuffers. eauto with scene. Qed.

Lemma keeps_scene_GenerateLeg i negX negY bb : keeps_scene (GenerateLeg i negX negY bb).
Proof.
  unfold GenerateLeg. apply keeps_scene_bind; [eauto with scene | intros a].
  cbv zeta. eauto 10 using keeps_scene_CreateSectionFromBuffers with scene.
Qed.

#[local] Hint Resolve keeps_scene_SetupMeshBuffers keeps_scene_CreateSectionFromBuffers
  keeps_scene_GenerateLeg : scene.

Lemma GenerateMesh_frame junkV junkT : keeps_scene (GenerateMesh junkV junkT).
Proof.
  unfold GenerateMesh. apply keeps_scene_bind; [eauto with scene | intros a].
  apply keeps_scene_bind; [eauto with scene | intros _].
  apply keeps_scene_bind; [eauto with scene | intros a1]. cbv zeta. eauto 20 with scene.
Qed.

Lemma reachable_scene_setup (a : Actor) : reachable a -> Scene a = ctor_scene.
Proof.
  induction 1 as [S L m c0 d _ | a e a' Hr IH Hs]; [reflexivity |].
  inversion Hs as [jv jt ? ? Hg | jv jt ? ? Hg | ]; subst; [| | exact IH];
    rewrite (GenerateMesh_frame jv jt a _ a' Hg); exact IH.
Qed.

(** C26. Invariant of the life cycle: in every reachable state the mesh
    component is the one the constructor named, attached to the root
    component, and its mesh data is not serialised. *)
Theorem reachable_scene (a : Actor) : reachable a -> Scene a = ctor_scene.
Proof. apply reachable_scene_setup. Qed.
End SceneFrame.

(** ** Witnesses at concrete inputs *)

Lemma reachable_scene_witness :
  Scene (after_GenerateMesh junk_vertex junk_index table_actor) = ctor_scene.
Proof.
  apply reachable_scene.
  apply (reachable_step table_actor EvOnConstruction); [exact table_actor_reachable |].
  apply (step_OnConstruction junk_vertex junk_index).
  apply GenerateMesh_correct. left. split_and!; reflexivity.
Defined.
